(** * gosqlrwdb: a read/write splitting router over database/sql handles

    A shallow embedding of the routing code of package [gosqlrwdb]
    (the classifier, the round-robin replica selector, the heartbeat
    monitor and the [DB] facade), and the properties its specification
    states about it. *)

From Stdlib Require Import ZArith Lia List String Ascii Bool.
From stdpp Require Import base decidable countable gmap sets list strings.

Local Open Scope Z_scope.
#[local] Set Warnings "-clear-no-such-hyp".

(** ** Go values *)

(** Go's [int] on the 64-bit targets: arithmetic wraps around. *)
Module GoInt.

Definition bits : Z := 64.
Definition max_int : Z := 2 ^ (bits - 1) - 1.
Definition min_int : Z := - 2 ^ (bits - 1).

(** The value an [int] holds after an operation whose exact result is [z]. *)
Definition wrap (z : Z) : Z := (z + 2 ^ (bits - 1)) mod 2 ^ bits - 2 ^ (bits - 1).

Definition incr (z : Z) : Z := wrap (z + 1).

(** [len(s)] of a slice. *)
Definition len {A} (l : list A) : Z := Z.of_nat (length l).

(** [s[i]]: [None] is the run-time panic "index out of range". *)
Definition index {A} (l : list A) (i : Z) : option A :=
  if i <? 0 then None else l !! Z.to_nat i.

End GoInt.

(** A Go [string] is a sequence of bytes; [Ascii.ascii] is the 8-bit byte. *)
Module GoString.

Definition is_upper (c : ascii) : bool :=
  let n := N_of_ascii c in ((65 <=? n) && (n <=? 90))%N.

Definition lower_byte (c : ascii) : ascii :=
  if is_upper c then ascii_of_N (N_of_ascii c + 32) else c.

(** [strings.ToLower].  The library maps [A]..[Z] to [a]..[z] and leaves
    every other byte below 0x80 alone.  Bytes from 0x80 on (parts of a
    multi-byte rune, or invalid UTF-8) are kept here as they are.  The
    library may rewrite such runes, but the only ones it turns into ASCII
    are U+0130, into [i], and U+212A, into [k]: whether the result equals
    "select" or "true", which is all the package asks of it, is the same
    here and there. *)
Fixpoint ToLower (s : string) : string :=
  match s with
  | EmptyString => EmptyString
  | String c s' => String (lower_byte c) (ToLower s')
  end.

(** [s[:n]] for [n <= len(s)]. *)
Definition slice_to (n : nat) (s : string) : string := String.substring 0 n s.

Definition eqb (a b : string) : bool := String.eqb a b.

End GoString.

(** ** errors.go *)

Inductive error : Type :=
  | ErrPrimaryInMaintenance
  | ErrNotProvidedPrimary
  | ErrNotProvidedReplicas
  | ErrNotQuerySQL
  | ErrNoReplicaAvailable
  | ErrDriver (code : nat).  (* an error a connection handle reports *)

#[global] Instance error_eq_dec : EqDecision error.
Proof. solve_decision. Defined.

(** What a Go function can end in besides returning: a panic. *)
Inductive panic : Type :=
  | PanicError (e : error)      (* panic(err) *)
  | NilDereference              (* a method of *sql.DB or a field read through nil *)
  | DivideByZero                (* x % 0 *)
  | IndexOutOfRange             (* s[i] outside the slice *)
  | CloseOfClosedChannel
  | NonPositiveInterval.        (* time.NewTicker(d) with d <= 0 *)

#[global] Instance panic_eq_dec : EqDecision panic.
Proof. solve_decision. Defined.

(** The result of a Go function of type [(T, error)] that may also panic. *)
Inductive res (A : Type) : Type :=
  | Ok (a : A)
  | Err (e : error)
  | Panic (p : panic).
Arguments Ok {A} a.
Arguments Err {A} e.
Arguments Panic {A} p.

(** A [*sql.DB]: [None] is the nil pointer, [Some h] the handle [h]. *)
Abbreviation sqlDB := (option positive).

(** ** The classifier (mydb.go, validate.go) *)

(** The function the package variable [IsQuerySqlFunc] is initialised with. *)
Definition defaultIsQuerySqlFunc (query : string) : bool :=
  if (6 <=? String.length query)%nat
     && GoString.eqb (GoString.ToLower (GoString.slice_to 6 query)) "select"
  then true
  else false.

(** The classification as the specification words it: the query begins,
    letter case apart, with the keyword, nothing being trimmed first. *)
Fixpoint begins_with_keyword_nocase (kw query : string) : bool :=
  match kw with
  | EmptyString => true
  | String k kw' =>
      match query with
      | EmptyString => false
      | String c query' =>
          Ascii.eqb (GoString.lower_byte c) k && begins_with_keyword_nocase kw' query'
      end
  end.

(** Go's [unicode.IsSpace] on the bytes below 0x80. *)
Definition is_space (c : ascii) : bool :=
  let n := N_of_ascii c in ((n =? 32) || ((9 <=? n) && (n <=? 13)))%N.

(** [validateQuery], with the classifier in force as an argument. *)
Definition validateQuery (isQuery : string -> bool) (query : string) : option error :=
  if negb (isQuery query) then Some ErrNotQuerySQL else None.

(** [validateNew]. *)
Definition validateNew (master : sqlDB) (readreplicas : list sqlDB) : option error :=
  if decide (master = None) then Some ErrNotProvidedPrimary
  else if (GoInt.len readreplicas =? 0) then Some ErrNotProvidedReplicas
  else if decide (Exists (λ r, r = None) readreplicas) then Some ErrNotProvidedReplicas
  else None.

(** ** Package variables (mydb.go) *)

(** The package variables, which a program may assign at any time; every
    operation reads their current values. *)
Record Globals : Type := mkGlobals {
  Debug : bool;
  DefaultReplicaAutoFailoverInterval : Z;   (* a time.Duration, in ns *)
  DisableReplicaAutoFailover : bool;
  DoValidateNew : bool;
  IsQuerySqlFunc : string -> bool
}.

Definition EnvVarPrimaryInMaintenanceKey : string := "MYDB_PRIMARY_IN_MAINTENANCE".
Definition EnvVarDebugKey : string := "MYDB_DEBUG".
Definition EnvVarDoValidateNewKey : string := "MYDB_DO_VALIDATE_NEW".
Definition EnvVarDisableReplicaAutoFailoverKey : string := "MYDB_DISABLE_REPLICA_AUTO_FAILOVER".

(** [strings.ToLower(os.Getenv(key)) == "true"]. *)
Definition env_true (getenv : string -> string) (key : string) : bool :=
  GoString.eqb (GoString.ToLower (getenv key)) "true".

Definition second : Z := 1000000000.

(** The values the package variables are initialised with. *)
Definition initial_globals (getenv : string -> string) : Globals :=
  {| Debug := env_true getenv EnvVarDebugKey;
     DefaultReplicaAutoFailoverInterval := 30 * second;
     DisableReplicaAutoFailover := env_true getenv EnvVarDisableReplicaAutoFailoverKey;
     DoValidateNew := env_true getenv EnvVarDoValidateNewKey;
     IsQuerySqlFunc := defaultIsQuerySqlFunc |}.

(** ** context.go *)

(** A context key: a value of the package's type [contextKey], or a key of
    some other type. *)
Inductive ctxKey : Type :=
  | ContextKey (k : Z)
  | ForeignKey (name : string).

#[global] Instance ctxKey_eq_dec : EqDecision ctxKey.
Proof. solve_decision. Defined.

Inductive ctxValue : Type :=
  | emptyContextValue
  | ForeignValue (v : string).

(** A [context.Context], as far as [Value] sees it: the chain of
    [context.WithValue] bindings, the innermost first.  A binding may hold
    the nil interface value ([None]). *)
Definition Context : Type := list (ctxKey * option ctxValue).

Definition Background : Context := [].

Definition WithValue (ctx : Context) (k : ctxKey) (v : option ctxValue) : Context :=
  (k, v) :: ctx.

Fixpoint Value (ctx : Context) (k : ctxKey) : option ctxValue :=
  match ctx with
  | [] => None
  | (k', v) :: parent => if decide (k = k') then v else Value parent k
  end.

Definition ContextUsePrimaryKey : ctxKey := ContextKey 0.

Definition WithPrimary (ctx : Context) : Context :=
  WithValue ctx ContextUsePrimaryKey (Some emptyContextValue).

Definition UsePrimaryFromContext (ctx : Context) : bool :=
  match Value ctx ContextUsePrimaryKey with
  | Some _ => true
  | None => false
  end.

(** ** The router (mydb.go) *)

Inductive chan : Type := ChanOpen | ChanClosed.

(** [type DB struct]; the mutex is left out, every critical section of the
    source being one step here. *)
Record DB : Type := mkDB {
  master : sqlDB;
  readreplicas : list sqlDB;
  count : Z;
  needHeartbeat : bool;
  unavailableReplicas : gset sqlDB;
  stopHeartbeat : chan;
  primaryInMaintence : bool
}.

Definition set_count (c : Z) (db : DB) : DB :=
  mkDB (master db) (readreplicas db) c (needHeartbeat db)
       (unavailableReplicas db) (stopHeartbeat db) (primaryInMaintence db).

Definition set_unavailableReplicas (s : gset sqlDB) (db : DB) : DB :=
  mkDB (master db) (readreplicas db) (count db) (needHeartbeat db)
       s (stopHeartbeat db) (primaryInMaintence db).

Definition set_stopHeartbeat (c : chan) (db : DB) : DB :=
  mkDB (master db) (readreplicas db) (count db) (needHeartbeat db)
       (unavailableReplicas db) c (primaryInMaintence db).

(** The critical section of [readReplicaRoundRobinHelper]:
    [db.count++; idx = db.count % len(db.readreplicas)].  Go's [%] is the
    remainder of the truncated division, [Z.rem]. *)
Definition roundRobinIndex (db : DB) : res Z * DB :=
  let c := GoInt.incr (count db) in
  let db' := set_count c db in
  let n := GoInt.len (readreplicas db) in
  if n =? 0 then (Panic DivideByZero, db') else (Ok (Z.rem c n), db').

(** [readReplicaRoundRobinHelper]: [return db.readreplicas[idx]]. *)
Definition readReplicaRoundRobinHelper (db : DB) : res sqlDB * DB :=
  match roundRobinIndex db with
  | (Ok idx, db') =>
      match GoInt.index (readreplicas db) idx with
      | Some r => (Ok r, db')
      | None => (Panic IndexOutOfRange, db')
      end
  | (Err e, db') => (Err e, db')
  | (Panic p, db') => (Panic p, db')
  end.

(** The loop of [readReplicaRoundRobin]; [tries] is the number of values
    [try] has still to take, [len(db.readreplicas)] at the start. *)
Fixpoint roundRobinTries (tries : nat) (db : DB) : res sqlDB * DB :=
  match tries with
  | O => (Err ErrNoReplicaAvailable, db)
  | S tries' =>
      match readReplicaRoundRobinHelper db with
      | (Ok r, db') =>
          if needHeartbeat db'
          then if decide (r ∈ unavailableReplicas db')
               then roundRobinTries tries' db'
               else (Ok r, db')
          else (Ok r, db')
      | failure => failure
      end
  end.

(** [readReplicaRoundRobin(bypassAutoFailover ...bool)]. *)
Definition readReplicaRoundRobin (g : Globals) (db : DB) (bypassAutoFailover : list bool)
  : res sqlDB * DB :=
  if negb (DoValidateNew g) && (GoInt.len (readreplicas db) =? 0)
  then (Err ErrNotProvidedReplicas, db)
  else if negb (needHeartbeat db)
          || ((0 <? GoInt.len bypassAutoFailover) && default false (head bypassAutoFailover))
  then readReplicaRoundRobinHelper db
  else roundRobinTries (length (readreplicas db)) db.

(** *** Connection handles *)

Section Handles.

(** Whatever the pings and closes of the handles depend on and change. *)
Context {World : Type}.
Variable hPing : positive -> World -> option error * World.

Fixpoint heartbeat_range (rs : list sqlDB) (unavailable : gset sqlDB) (w : World)
  : res (gset sqlDB) * World :=
  match rs with
  | [] => (Ok unavailable, w)
  | None :: _ => (Panic NilDereference, w)
  | Some h :: rs' =>
      let '(err, w') := hPing h w in
      match err with
      | Some _ => heartbeat_range rs' ({[Some h]} ∪ unavailable) w'
      | None => heartbeat_range rs' unavailable w'
      end
  end.

(** [heartbeat]: the set of the replicas whose [Ping] fails. *)
Definition heartbeat (rs : list sqlDB) (w : World) : res (gset sqlDB) * World :=
  heartbeat_range rs ∅ w.

(** The goroutine [New] starts: the ticker it captured. *)
Record Monitor : Type := mkMonitor { ticker : option Z }.

(** [New].  [getenv] is [os.Getenv]. *)
Definition New (g : Globals) (getenv : string -> string)
    (master : sqlDB) (readreplicas : list sqlDB) (w : World)
  : res (DB * Monitor) * World :=
  match (if DoValidateNew g then validateNew master readreplicas else None) with
  | Some err => (Panic (PanicError err), w)
  | None =>
      let needHeartbeat := negb (DisableReplicaAutoFailover g) in
      let mk unavailable tk :=
        (mkDB master readreplicas (-1) needHeartbeat unavailable ChanOpen
              (env_true getenv EnvVarPrimaryInMaintenanceKey),
         mkMonitor tk) in
      if needHeartbeat then
        match heartbeat readreplicas w with
        | (Ok unavailable, w') =>
            if DefaultReplicaAutoFailoverInterval g <=? 0
            then (Panic NonPositiveInterval, w')
            else (Ok (mk unavailable (Some (DefaultReplicaAutoFailoverInterval g))), w')
        | (Err e, w') => (Err e, w')
        | (Panic p, w') => (Panic p, w')
        end
      else (Ok (mk ∅ None), w)
  end.

(** What wakes the goroutine's [select]. *)
Inductive wake : Type := WakeTick | WakeStop.

(** One turn of the goroutine's loop.  Entering the [select] evaluates
    [ticker.C], a field read through the pointer [ticker].
    [Ok (Some db')]: the loop goes on; [Ok None]: the goroutine returned. *)
Definition monitor_turn (m : Monitor) (wk : wake) (db : DB) (w : World)
  : res (option DB) * World :=
  match ticker m with
  | None => (Panic NilDereference, w)
  | Some _ =>
      match wk with
      | WakeTick =>
          match heartbeat (readreplicas db) w with
          | (Ok s, w') => (Ok (Some (set_unavailableReplicas s db)), w')
          | (Err e, w') => (Err e, w')
          | (Panic p, w') => (Panic p, w')
          end
      | WakeStop => (Ok None, w)
      end
  end.

End Handles.

(** *** The facade *)

Inductive arg : Type :=
  | ArgInt (z : Z)
  | ArgString (v : string).

(** [*sql.TxOptions], opaque to the router. *)
Definition TxOptions : Type := nat.

(** A method call on a [*sql.DB], with the arguments it is given. *)
Inductive call : Type :=
  | CallQuery (query : string) (args : list arg)
  | CallQueryContext (ctx : Context) (query : string) (args : list arg)
  | CallQueryRow (query : string) (args : list arg)
  | CallQueryRowContext (ctx : Context) (query : string) (args : list arg)
  | CallBegin
  | CallBeginTx (ctx : Context) (opts : option TxOptions)
  | CallExec (query : string) (args : list arg)
  | CallExecContext (ctx : Context) (query : string) (args : list arg)
  | CallPrepare (query : string)
  | CallPrepareContext (ctx : Context) (query : string).

(** How a facade method ends: [return tgtdb.M(...)] (the handle's answer
    is the method's), [return nil, err], or a panic. *)
Inductive outcome : Type :=
  | Delegate (h : positive) (c : call)
  | Return (e : error)
  | Abort (p : panic).

(** [return tgtdb.M(...)]: a method of [*sql.DB] reads through its receiver. *)
Definition delegate (tgtdb : sqlDB) (c : call) : outcome :=
  match tgtdb with
  | Some h => Delegate h c
  | None => Abort NilDereference
  end.

Definition Query (g : Globals) (db : DB) (query : string) (args : list arg)
  : outcome * DB :=
  match validateQuery (IsQuerySqlFunc g) query with
  | Some err => (Return err, db)
  | None =>
      match readReplicaRoundRobin g db [] with
      | (Ok tgtdb, db') => (delegate tgtdb (CallQuery query args), db')
      | (Err err, db') => (Return err, db')
      | (Panic p, db') => (Abort p, db')
      end
  end.

Definition QueryContext (g : Globals) (db : DB) (ctx : Context) (query : string)
    (args : list arg) : outcome * DB :=
  match validateQuery (IsQuerySqlFunc g) query with
  | Some err => (Return err, db)
  | None =>
      if UsePrimaryFromContext ctx && negb (primaryInMaintence db) then
        if negb (DoValidateNew g) && bool_decide (master db = None)
        then (Return ErrNotProvidedPrimary, db)
        else (delegate (master db) (CallQueryContext ctx query args), db)
      else
        match readReplicaRoundRobin g db [] with
        | (Ok tgtdb, db') => (delegate tgtdb (CallQueryContext ctx query args), db')
        | (Err err, db') => (Return err, db')
        | (Panic p, db') => (Abort p, db')
        end
  end.

Definition QueryRow (g : Globals) (db : DB) (query : string) (args : list arg)
  : outcome * DB :=
  match readReplicaRoundRobin g db [true] with
  | (Ok tgtdb, db') => (delegate tgtdb (CallQueryRow query args), db')
  | (Err err, db') => (Abort (PanicError err), db')
  | (Panic p, db') => (Abort p, db')
  end.

Definition QueryRowContext (g : Globals) (db : DB) (ctx : Context) (query : string)
    (args : list arg) : outcome * DB :=
  if UsePrimaryFromContext ctx && negb (primaryInMaintence db) then
    if negb (DoValidateNew g) && bool_decide (master db = None)
    then (Abort (PanicError ErrNotProvidedPrimary), db)
    else (delegate (master db) (CallQueryRowContext ctx query args), db)
  else
    match readReplicaRoundRobin g db [true] with
    | (Ok tgtdb, db') => (delegate tgtdb (CallQueryRowContext ctx query args), db')
    | (Err err, db') => (Abort (PanicError err), db')
    | (Panic p, db') => (Abort p, db')
    end.

(** The checks [Begin], [BeginTx], [Exec], [ExecContext] and the primary
    branch of [Prepare] and [PrepareContext] each spell out before they
    call the primary. *)
Definition on_primary (g : Globals) (db : DB) (c : call) : outcome :=
  if primaryInMaintence db then Return ErrPrimaryInMaintenance
  else if negb (DoValidateNew g) && bool_decide (master db = None)
  then Return ErrNotProvidedPrimary
  else delegate (master db) c.

Definition Begin (g : Globals) (db : DB) : outcome * DB :=
  (on_primary g db CallBegin, db).

Definition BeginTx (g : Globals) (db : DB) (ctx : Context) (opts : option TxOptions)
  : outcome * DB :=
  (on_primary g db (CallBeginTx ctx opts), db).

Definition Exec (g : Globals) (db : DB) (query : string) (args : list arg)
  : outcome * DB :=
  (on_primary g db (CallExec query args), db).

Definition ExecContext (g : Globals) (db : DB) (ctx : Context) (query : string)
    (args : list arg) : outcome * DB :=
  (on_primary g db (CallExecContext ctx query args), db).

Definition Prepare (g : Globals) (db : DB) (query : string) : outcome * DB :=
  if IsQuerySqlFunc g query then
    match readReplicaRoundRobin g db [] with
    | (Ok tgtdb, db') => (delegate tgtdb (CallPrepare query), db')
    | (Err err, db') => (Return err, db')
    | (Panic p, db') => (Abort p, db')
    end
  else (on_primary g db (CallPrepare query), db).

Definition PrepareContext (g : Globals) (db : DB) (ctx : Context) (query : string)
  : outcome * DB :=
  let isQuery := IsQuerySqlFunc g query in
  let usePrimary := UsePrimaryFromContext ctx in
  if isQuery && negb usePrimary then
    match readReplicaRoundRobin g db [] with
    | (Ok tgtdb, db') => (delegate tgtdb (CallPrepareContext ctx query), db')
    | (Err err, db') => (Return err, db')
    | (Panic p, db') => (Abort p, db')
    end
  else (on_primary g db (CallPrepareContext ctx query), db).

(** *** Close *)

(** What [Close] does that the outside can see, in the order it does it. *)
Inductive event : Type :=
  | EvStopHeartbeat            (* close(db.stopHeartbeat) *)
  | EvClose (h : positive).    (* h.Close() *)

(** [multierr.Append(errs, err)] for a non-nil [err].  The error [errs]
    holds is kept as the list of the errors appended so far: the empty
    list is nil, and a list of one is that error itself. *)
Definition multierr_Append (errs : list error) (err : error) : list error :=
  errs ++ [err].

Section CloseHandles.

Context {World : Type}.
Variable hClose : positive -> World -> option error * World.

(** One [if err = x.Close(); err != nil { errs = multierr.Append(errs, err) }]. *)
Definition close_one (x : sqlDB) (st : list error * list event * World)
  : res (list error * list event * World) :=
  let '(errs, tr, w) := st in
  match x with
  | None => Panic NilDereference
  | Some h =>
      let '(err, w') := hClose h w in
      Ok (match err with Some e => multierr_Append errs e | None => errs end,
          tr ++ [EvClose h], w')
  end.

(** [for i := range db.readreplicas { ... }]. *)
Fixpoint close_range (rs : list sqlDB) (st : list error * list event * World)
  : res (list error * list event * World) :=
  match rs with
  | [] => Ok st
  | r :: rs' =>
      match close_one r st with
      | Ok st' => close_range rs' st'
      | failure => failure
      end
  end.

(** [Close]: the error it returns (the empty list is nil), what it did,
    and the router and the world it leaves. *)
Definition Close (db : DB) (w : World) : res (list error * list event * World) * DB :=
  match stopHeartbeat db with
  | ChanClosed => (Panic CloseOfClosedChannel, db)
  | ChanOpen =>
      let db' := set_stopHeartbeat ChanClosed db in
      let st0 := ([], [EvStopHeartbeat], w) in
      match (if negb (primaryInMaintence db) then close_one (master db) st0 else Ok st0) with
      | Ok st1 => (close_range (readreplicas db) st1, db')
      | failure => (failure, db')
      end
  end.

End CloseHandles.

(** *** Runs of calls *)

(** [n] calls of the helper's critical section in a row: the indices. *)
Fixpoint helper_indices (n : nat) (db : DB) : list (res Z) :=
  match n with
  | O => []
  | S n' => let '(r, db') := roundRobinIndex db in r :: helper_indices n' db'
  end.

(** [n] calls of [readReplicaRoundRobin] in a row: what each returns. *)
Fixpoint selections (g : Globals) (bypassAutoFailover : list bool) (n : nat) (db : DB)
  : list (res sqlDB) :=
  match n with
  | O => []
  | S n' =>
      let '(r, db') := readReplicaRoundRobin g db bypassAutoFailover in
      r :: selections g bypassAutoFailover n' db'
  end.

#[global] Instance res_eq_dec {A} `{EqDecision A} : EqDecision (res A).
Proof. solve_decision. Defined.

(** How many entries of [l] are the index [i]. *)
Definition occurrences (i : Z) (l : list (res Z)) : nat :=
  length (List.filter (λ r, bool_decide (r = Ok i)) l).

(** The replica at index [i] of the list, nil past its end. *)
Definition replica_at (db : DB) (i : Z) : sqlDB :=
  default None (readreplicas db !! Z.to_nat i).

(** The cursor can take [n] more steps from where [New] left it without
    leaving the range of [int]. *)
Definition cursor_has_room (n : Z) (db : DB) : Prop :=
  -1 <= count db /\ count db + n <= GoInt.max_int.

(** How far a call moved the cursor: the number of helper calls it made. *)
Definition attempts (before after : DB) : Z := count after - count before.

(** The methods of the facade that take no handle answer into account. *)
Inductive op : Type :=
  | OpQuery (query : string) (args : list arg)
  | OpQueryContext (ctx : Context) (query : string) (args : list arg)
  | OpQueryRow (query : string) (args : list arg)
  | OpQueryRowContext (ctx : Context) (query : string) (args : list arg)
  | OpBegin
  | OpBeginTx (ctx : Context) (opts : option TxOptions)
  | OpExec (query : string) (args : list arg)
  | OpExecContext (ctx : Context) (query : string) (args : list arg)
  | OpPrepare (query : string)
  | OpPrepareContext (ctx : Context) (query : string).

Definition run_op (g : Globals) (db : DB) (o : op) : outcome * DB :=
  match o with
  | OpQuery query args => Query g db query args
  | OpQueryContext ctx query args => QueryContext g db ctx query args
  | OpQueryRow query args => QueryRow g db query args
  | OpQueryRowContext ctx query args => QueryRowContext g db ctx query args
  | OpBegin => Begin g db
  | OpBeginTx ctx opts => BeginTx g db ctx opts
  | OpExec query args => Exec g db query args
  | OpExecContext ctx query args => ExecContext g db ctx query args
  | OpPrepare query => Prepare g db query
  | OpPrepareContext ctx query => PrepareContext g db ctx query
  end.

(** The calls that go to the primary whatever else holds: [Exec],
    [ExecContext], [Begin], [BeginTx], and [Prepare] and [PrepareContext]
    of a query the classifier in force does not take for read-only. *)
Definition targets_primary (g : Globals) (o : op) : bool :=
  match o with
  | OpBegin | OpBeginTx _ _ | OpExec _ _ | OpExecContext _ _ _ => true
  | OpPrepare query | OpPrepareContext _ query => negb (IsQuerySqlFunc g query)
  | OpQuery _ _ | OpQueryContext _ _ _ | OpQueryRow _ _ | OpQueryRowContext _ _ _ => false
  end.

(** A method signals [e]: it returns it, or panics with it. *)
Definition signals (e : error) (o : outcome) : Prop :=
  o = Return e \/ o = Abort (PanicError e).

Definition set_IsQuerySqlFunc (f : string -> bool) (g : Globals) : Globals :=
  mkGlobals (Debug g) (DefaultReplicaAutoFailoverInterval g)
            (DisableReplicaAutoFailover g) (DoValidateNew g) f.

Section Reachable.

Context {World : Type}.
Variable hPing : positive -> World -> option error * World.
Variable hClose : positive -> World -> option error * World.

(** The routers a program can hold: built by [New], then used through
    the facade, ticked by the goroutine and closed, in any order and
    under any values of the package variables. *)
Inductive reachable : DB -> Prop :=
  | reach_New g getenv master replicas w db m w' :
      New hPing g getenv master replicas w = (Ok (db, m), w') ->
      reachable db
  | reach_op g o db :
      reachable db -> reachable (snd (run_op g db o))
  | reach_tick m db w db' w' :
      reachable db ->
      monitor_turn hPing m WakeTick db w = (Ok (Some db'), w') ->
      reachable db'
  | reach_Close db w :
      reachable db -> reachable (snd (Close hClose db w)).

(** Every handle of [hs] pinged once, in order: the answers. *)
Fixpoint ping_all (hs : list positive) (w : World) : list (option error) * World :=
  match hs with
  | [] => ([], w)
  | h :: hs' =>
      let '(e, w1) := hPing h w in
      let '(es, w2) := ping_all hs' w1 in
      (e :: es, w2)
  end.

(** Every handle of [hs] closed once, in order, whatever the earlier
    closes answered: the answers. *)
Fixpoint close_all (hs : list positive) (w : World) : list (option error) * World :=
  match hs with
  | [] => ([], w)
  | h :: hs' =>
      let '(e, w1) := hClose h w in
      let '(es, w2) := close_all hs' w1 in
      (e :: es, w2)
  end.

End Reachable.

(** The handles [Close] is to close, in order: the primary unless it is
    in maintenance, then the replicas as listed. *)
Definition close_targets (db : DB) : list sqlDB :=
  (if primaryInMaintence db then [] else [master db]) ++ readreplicas db.

(** Two routers that differ in the cursor and the stop channel at most. *)
Definition same_replica_state (db db' : DB) : Prop :=
  readreplicas db' = readreplicas db
  /\ unavailableReplicas db' = unavailableReplicas db.

(** The errors among the answers, in order. *)
Definition errors_of (answers : list (option error)) : list error := omap id answers.

(** The handles among [hs] whose answer is an error. *)
Fixpoint failed (hs : list positive) (answers : list (option error)) : list sqlDB :=
  match hs, answers with
  | h :: hs', Some _ :: answers' => Some h :: failed hs' answers'
  | _ :: hs', None :: answers' => failed hs' answers'
  | _, _ => []
  end.

(** ** Sample values *)

Module Sample.

(** Handles that answer every ping and every close with [answer]. *)
Definition steady (answer : option error) (h : positive) (w : unit)
  : option error * unit := (answer, w).

(** Handles of which exactly those listed in [down] fail. *)
Definition failing (down : list positive) (h : positive) (w : unit)
  : option error * unit :=
  (if bool_decide (h ∈ down) then Some (ErrDriver (Pos.to_nat h)) else None, w).

Definition no_env (key : string) : string := "".

Definition maintenance_env (key : string) : string :=
  if String.eqb key EnvVarPrimaryInMaintenanceKey then "True" else "".

(** The package variables as an empty environment leaves them. *)
Definition g_default : Globals := initial_globals no_env.

Definition g_validating : Globals :=
  mkGlobals false (30 * second) false true defaultIsQuerySqlFunc.

Definition g_no_failover : Globals :=
  mkGlobals false (30 * second) true false defaultIsQuerySqlFunc.

Definition primary : sqlDB := Some 1%positive.
Definition three_replicas : list sqlDB := [Some 2; Some 3; Some 4]%positive.

(** What [New(primary, r2, r3, r4)] returns when every ping succeeds. *)
Definition db3 : DB :=
  mkDB primary three_replicas (-1) true ∅ ChanOpen false.

(** The same router after a heartbeat that found every replica down. *)
Definition db3_all_down : DB :=
  set_unavailableReplicas (list_to_set three_replicas) db3.

(** The same router after a heartbeat that found the second replica down. *)
Definition db3_one_down : DB :=
  set_unavailableReplicas {[Some 3%positive]} db3.

(** A router without replicas. *)
Definition db_no_replicas : DB :=
  mkDB primary [] (-1) true ∅ ChanOpen false.

(** A router whose primary is in maintenance. *)
Definition db3_maintenance : DB :=
  mkDB primary three_replicas (-1) true ∅ ChanOpen true.

(** A router built without a primary, validation being off. *)
Definition db3_no_primary : DB :=
  mkDB None three_replicas (-1) true ∅ ChanOpen false.

End Sample.

(** ** Ping and the pool settings (mydb.go) *)

(** The presence checks [Ping], [PingContext] and the three setters each
    open with, under [if !DoValidateNew]: the error of the first that
    fails. *)
Definition presence_check (g : Globals) (db : DB) : option error :=
  if negb (DoValidateNew g) then
    if bool_decide (master db = None) then Some ErrNotProvidedPrimary
    else if GoInt.len (readreplicas db) =? 0 then Some ErrNotProvidedReplicas
    else None
  else None.

Section PingHandles.

Context {World : Type}.

(** One [if err := x.Ping(); err != nil { return err }]: the result, the
    handles pinged so far and the world. *)
Definition ping_one (ping : positive -> World -> option error * World)
    (x : sqlDB) (tr : list positive) (w : World)
  : res unit * list positive * World :=
  match x with
  | None => (Panic NilDereference, tr, w)
  | Some h =>
      let '(err, w') := ping h w in
      (match err with Some e => Err e | None => Ok tt end, tr ++ [h], w')
  end.

(** [for i := range db.readreplicas { ... return err ... }]. *)
Fixpoint ping_range (ping : positive -> World -> option error * World)
    (rs : list sqlDB) (tr : list positive) (w : World)
  : res unit * list positive * World :=
  match rs with
  | [] => (Ok tt, tr, w)
  | r :: rs' =>
      match ping_one ping r tr w with
      | (Ok _, tr', w') => ping_range ping rs' tr' w'
      | failure => failure
      end
  end.

(** [Ping]: [Ok tt] is the nil error. *)
Definition Ping (hPing : positive -> World -> option error * World)
    (g : Globals) (db : DB) (w : World) : res unit * list positive * World :=
  match presence_check g db with
  | Some err => (Err err, [], w)
  | None =>
      match (if negb (primaryInMaintence db)
             then ping_one hPing (master db) [] w
             else (Ok tt, [], w)) with
      | (Ok _, tr, w') => ping_range hPing (readreplicas db) tr w'
      | failure => failure
      end
  end.

(** [PingContext]; [hPingContext ctx h] is [h.PingContext(ctx)]. *)
Definition PingContext
    (hPingContext : Context -> positive -> World -> option error * World)
    (g : Globals) (db : DB) (ctx : Context) (w : World)
  : res unit * list positive * World :=
  match presence_check g db with
  | Some err => (Err err, [], w)
  | None =>
      match (if negb (primaryInMaintence db)
             then ping_one (hPingContext ctx) (master db) [] w
             else (Ok tt, [], w)) with
      | (Ok _, tr, w') => ping_range (hPingContext ctx) (readreplicas db) tr w'
      | failure => failure
      end
  end.

End PingHandles.

(** A pool setting and its value. *)
Inductive setting : Type :=
  | ConnMaxLifetime (d : Z)
  | MaxIdleConns (n : Z)
  | MaxOpenConns (n : Z).

(** [x.SetM(v)]: the settings made so far, each with its handle. *)
Definition apply_one (s : setting) (x : sqlDB) (tr : list (positive * setting))
  : res unit * list (positive * setting) :=
  match x with
  | None => (Panic NilDereference, tr)
  | Some h => (Ok tt, tr ++ [(h, s)])
  end.

Fixpoint apply_range (s : setting) (rs : list sqlDB) (tr : list (positive * setting))
  : res unit * list (positive * setting) :=
  match rs with
  | [] => (Ok tt, tr)
  | r :: rs' =>
      match apply_one s r tr with
      | (Ok _, tr') => apply_range s rs' tr'
      | failure => failure
      end
  end.

(** The body the three setters share, word for word but for the method
    they call. *)
Definition set_pool (s : setting) (g : Globals) (db : DB)
  : res unit * list (positive * setting) :=
  match presence_check g db with
  | Some err => (Panic (PanicError err), [])
  | None =>
      match (if negb (primaryInMaintence db)
             then apply_one s (master db) []
             else (Ok tt, [])) with
      | (Ok _, tr) => apply_range s (readreplicas db) tr
      | failure => failure
      end
  end.

Definition SetConnMaxLifetime (g : Globals) (db : DB) (d : Z) := set_pool (ConnMaxLifetime d) g db.
Definition SetMaxIdleConns (g : Globals) (db : DB) (n : Z) := set_pool (MaxIdleConns n) g db.
Definition SetMaxOpenConns (g : Globals) (db : DB) (n : Z) := set_pool (MaxOpenConns n) g db.

(** ** More vocabulary *)

(** The same router over another primary and maintenance flag. *)
Definition set_primary (m : sqlDB) (maintenance : bool) (db : DB) : DB :=
  mkDB m (readreplicas db) (count db) (needHeartbeat db)
       (unavailableReplicas db) (stopHeartbeat db) maintenance.

(** The calls that are served by a replica whatever the primary is:
    [Query], [QueryRow], [Prepare] of a read-only query, and the context
    forms of the three when the context carries no directive. *)
Definition reads_replica (g : Globals) (o : op) : bool :=
  match o with
  | OpQuery _ _ | OpQueryRow _ _ => true
  | OpQueryContext ctx _ _ | OpQueryRowContext ctx _ _ => negb (UsePrimaryFromContext ctx)
  | OpPrepare query => IsQuerySqlFunc g query
  | OpPrepareContext ctx query => IsQuerySqlFunc g query && negb (UsePrimaryFromContext ctx)
  | OpBegin | OpBeginTx _ _ | OpExec _ _ | OpExecContext _ _ _ => false
  end.

(** The call on a handle that a method of the facade comes down to. *)
Definition call_of (o : op) : call :=
  match o with
  | OpQuery query args => CallQuery query args
  | OpQueryContext ctx query args => CallQueryContext ctx query args
  | OpQueryRow query args => CallQueryRow query args
  | OpQueryRowContext ctx query args => CallQueryRowContext ctx query args
  | OpBegin => CallBegin
  | OpBeginTx ctx opts => CallBeginTx ctx opts
  | OpExec query args => CallExec query args
  | OpExecContext ctx query args => CallExecContext ctx query args
  | OpPrepare query => CallPrepare query
  | OpPrepareContext ctx query => CallPrepareContext ctx query
  end.

(** Two routers that differ in the cursor at most. *)
Definition same_but_cursor (db db' : DB) : Prop :=
  db' = set_count (count db') db.

(** More sample routers. *)
Module Cases.

(** The router of three replicas after a heartbeat that found the first
    one down. *)
Definition db3_first_down : DB :=
  set_unavailableReplicas {[Some 2%positive]} Sample.db3.

(** A router at the end of the cursor's range. *)
Definition db3_last_count : DB := set_count GoInt.max_int Sample.db3.

(** A router built, validation off, with nothing at all. *)
Definition db_nothing : DB := mkDB None [] (-1) true ∅ ChanOpen false.

(** A ping that answers by the context it is given. *)
Definition ping_by_context (ctx : Context) (h : positive) (w : unit)
  : option error * unit :=
  (if UsePrimaryFromContext ctx then Some (ErrDriver (Pos.to_nat h)) else None, w).

End Cases.

(** ** Go values: facts *)

Section GoIntFacts.

Lemma wrap_small z : GoInt.min_int <= z <= GoInt.max_int -> GoInt.wrap z = z.
Proof.
  unfold GoInt.wrap, GoInt.min_int, GoInt.max_int, GoInt.bits. intros Hz.
  change (2 ^ (64 - 1)) with 9223372036854775808 in *.
  change (2 ^ 64) with 18446744073709551616.
  rewrite Z.mod_small; lia.
Qed.

Lemma incr_small z : GoInt.min_int <= z < GoInt.max_int -> GoInt.incr z = z + 1.
Proof. intros Hz. unfold GoInt.incr. apply wrap_small. lia. Qed.

Lemma index_nat {A} (l : list A) (i : nat) : GoInt.index l (Z.of_nat i) = l !! i.
Proof.
  unfold GoInt.index. destruct (Z.ltb_spec (Z.of_nat i) 0); [lia|].
  by rewrite Nat2Z.id.
Qed.

End GoIntFacts.

(** ** The classifier: proofs *)

Section Classifier.

Lemma prefix_test_is_keyword_test (kw query : string) :
  (String.length kw <=? String.length query)%nat
  && GoString.eqb (GoString.ToLower (GoString.slice_to (String.length kw) query)) kw
  = begins_with_keyword_nocase kw query.
Proof.
  revert query. induction kw as [|k kw IH]; intros query.
  - destruct query; reflexivity.
  - destruct query as [|c query]; [reflexivity|].
    specialize (IH query). cbn in *.
    unfold GoString.eqb, GoString.slice_to in *. cbn.
    destruct (Ascii.eqb (GoString.lower_byte c) k); cbn; [exact IH|].
    by rewrite andb_false_r.
Qed.

Lemma defaultIsQuerySqlFunc_keyword query :
  defaultIsQuerySqlFunc query = begins_with_keyword_nocase "select" query.
Proof.
  rewrite <- (prefix_test_is_keyword_test "select" query).
  unfold defaultIsQuerySqlFunc. change (String.length "select") with 6%nat.
  by destruct (_ && _).
Qed.

Lemma space_is_not_s c : is_space c = true -> Ascii.eqb (GoString.lower_byte c) "s" = false.
Proof.
  destruct c as [[] [] [] [] [] [] [] []]; vm_compute; congruence.
Qed.

Lemma keyword_needs_length kw query :
  (String.length query < String.length kw)%nat ->
  begins_with_keyword_nocase kw query = false.
Proof.
  revert query. induction kw as [|k kw IH]; intros [|c query] Hlen; cbn in *;
    try lia; try reflexivity.
  rewrite IH; [apply andb_false_r | lia].
Qed.

End Classifier.

(** C5. The default classifier answers true exactly when the query
    begins, letter case apart, with the keyword "select", with no
    trimming: a query that starts with white space is not read-only, and
    neither is a query of fewer than 6 bytes. *)
Theorem C5_default_classifier (query : string) :
  defaultIsQuerySqlFunc query = begins_with_keyword_nocase "select" query
  /\ (forall c rest, query = String c rest -> is_space c = true ->
        defaultIsQuerySqlFunc query = false)
  /\ ((String.length query < 6)%nat -> defaultIsQuerySqlFunc query = false).
Proof.
  split; [apply defaultIsQuerySqlFunc_keyword|]. split.
  - intros c rest -> Hc. rewrite defaultIsQuerySqlFunc_keyword. cbn.
    by rewrite (space_is_not_s c Hc).
  - intros Hlen. rewrite defaultIsQuerySqlFunc_keyword.
    by apply keyword_needs_length.
Qed.

Lemma C5_default_classifier_witness :
  defaultIsQuerySqlFunc " select 1" = false /\ defaultIsQuerySqlFunc "SeLeC" = false
  /\ defaultIsQuerySqlFunc "SeLeCt 1" = true.
Proof.
  destruct (C5_default_classifier " select 1") as (_ & Hsp & _).
  destruct (C5_default_classifier "SeLeC") as (_ & _ & Hshort).
  destruct (C5_default_classifier "SeLeCt 1") as (Heq & _ & _).
  split; [|split].
  - apply (Hsp " "%char "select 1"); reflexivity.
  - apply Hshort. cbn. lia.
  - rewrite Heq. reflexivity.
Defined.

(** ** The replica selector: proofs *)

Section Selector.

Implicit Types (db : DB) (g : Globals).

Lemma set_count_count db : set_count (count db) db = db.
Proof. by destruct db. Qed.

Lemma len_pos db : readreplicas db <> [] -> 0 < GoInt.len (readreplicas db).
Proof. unfold GoInt.len. destruct (readreplicas db); [done | cbn; lia]. Qed.

Lemma max_int_value : GoInt.max_int = 9223372036854775807.
Proof. reflexivity. Qed.

Lemma min_int_value : GoInt.min_int = -9223372036854775808.
Proof. reflexivity. Qed.

Lemma roundRobinIndex_in_range db :
  readreplicas db <> [] -> -1 <= count db < GoInt.max_int ->
  roundRobinIndex db
  = (Ok ((count db + 1) mod GoInt.len (readreplicas db)), set_count (count db + 1) db).
Proof.
  intros Hne Hc. pose proof (len_pos db Hne) as Hlen. unfold roundRobinIndex.
  rewrite incr_small by (rewrite min_int_value; lia).
  destruct (Z.eqb_spec (GoInt.len (readreplicas db)) 0) as [H0|H0]; [lia|].
  by rewrite Z.rem_mod_nonneg by lia.
Qed.

Lemma helper_in_range db :
  readreplicas db <> [] -> -1 <= count db < GoInt.max_int ->
  readReplicaRoundRobinHelper db
  = (Ok (replica_at db ((count db + 1) mod GoInt.len (readreplicas db))),
     set_count (count db + 1) db).
Proof.
  intros Hne Hc. pose proof (len_pos db Hne) as Hlen.
  unfold readReplicaRoundRobinHelper. rewrite roundRobinIndex_in_range by done.
  set (idx := (count db + 1) mod GoInt.len (readreplicas db)).
  assert (0 <= idx < GoInt.len (readreplicas db)) as Hidx
    by (apply Z.mod_pos_bound; lia).
  unfold GoInt.index, replica_at.
  destruct (Z.ltb_spec idx 0) as [?|_]; [lia|].
  destruct (lookup_lt_is_Some_2 (readreplicas db) (Z.to_nat idx)) as [r Hr].
  { unfold GoInt.len in Hidx. lia. }
  by rewrite Hr.
Qed.

(** With nothing unavailable the selector is the helper, whatever the
    flags say. *)
Lemma selector_is_helper g db bypass :
  readreplicas db <> [] -> -1 <= count db < GoInt.max_int ->
  unavailableReplicas db = ∅ ->
  readReplicaRoundRobin g db bypass = readReplicaRoundRobinHelper db.
Proof.
  intros Hne Hc Hun. pose proof (len_pos db Hne) as Hlen.
  unfold readReplicaRoundRobin.
  destruct (Z.eqb_spec (GoInt.len (readreplicas db)) 0) as [?|_]; [lia|].
  rewrite andb_false_r.
  destruct (negb (needHeartbeat db) || _); [done|].
  destruct (readreplicas db) as [|r0 rs] eqn:Hrs; [done|]. cbn [length roundRobinTries].
  rewrite helper_in_range by (rewrite ?Hrs; done).
  cbn [needHeartbeat unavailableReplicas set_count]. rewrite Hun.
  destruct (needHeartbeat db); [|done].
  destruct (decide _) as [Hin|_]; [set_solver|done].
Qed.

Lemma helper_indices_run n db :
  readreplicas db <> [] -> cursor_has_room (Z.of_nat n) db ->
  helper_indices n db
  = (λ k : nat, Ok ((count db + 1 + Z.of_nat k) mod GoInt.len (readreplicas db)))
      <$> seq 0 n.
Proof.
  revert db. induction n as [|n IH]; intros db Hne [Hlo Hhi]; [done|].
  cbn [helper_indices]. rewrite roundRobinIndex_in_range by (done || lia).
  rewrite IH by (done || (split; cbn; lia)).
  cbn [seq fmap list_fmap]. rewrite Z.add_0_r. f_equal.
  rewrite <- fmap_S_seq, <- list_fmap_compose.
  apply list_fmap_ext. intros _ k _. cbn.
  by replace (count db + 1 + 1 + Z.of_nat k) with (count db + 1 + Z.of_nat (S k)) by lia.
Qed.

Lemma selections_run g bypass n db :
  readreplicas db <> [] -> cursor_has_room (Z.of_nat n) db ->
  unavailableReplicas db = ∅ ->
  selections g bypass n db
  = (λ k : nat, Ok (replica_at db
                      ((count db + 1 + Z.of_nat k) mod GoInt.len (readreplicas db))))
      <$> seq 0 n.
Proof.
  revert db. induction n as [|n IH]; intros db Hne [Hlo Hhi] Hun; [done|].
  cbn [selections]. rewrite selector_is_helper, helper_in_range by (done || lia).
  rewrite IH by (done || (split; cbn; lia)).
  cbn [seq fmap list_fmap]. rewrite Z.add_0_r. f_equal.
  rewrite <- fmap_S_seq, <- list_fmap_compose.
  apply list_fmap_ext. intros _ k _. cbn. unfold replica_at. cbn.
  by replace (count db + 1 + 1 + Z.of_nat k) with (count db + 1 + Z.of_nat (S k)) by lia.
Qed.

(** Two rounds over [N] places. *)
Lemma two_rounds {A} (F : Z -> A) (N : nat) :
  (0 < N)%nat ->
  (λ k : nat, F (Z.of_nat k mod Z.of_nat N)) <$> seq 0 (N + N)
  = (F <$> seqZ 0 (Z.of_nat N)) ++ (F <$> seqZ 0 (Z.of_nat N)).
Proof.
  intros HN. rewrite seq_app, fmap_app. unfold seqZ. rewrite Nat2Z.id.
  rewrite <- !list_fmap_compose. f_equal.
  - apply list_fmap_ext. intros j k Hk%lookup_seq. cbn. f_equal.
    rewrite Z.mod_small; lia.
  - rewrite (Nat.add_comm 0 N), <- (fmap_add_seq N 0), <- list_fmap_compose.
    apply list_fmap_ext. intros j k Hk%lookup_seq. cbn. f_equal.
    rewrite Nat2Z.inj_add, Z.add_comm, <- (Z.mul_1_l (Z.of_nat N)) at 1.
    rewrite Z_mod_plus_full, Z.mod_small; lia.
Qed.

Lemma replicas_by_index db :
  replica_at db <$> seqZ 0 (GoInt.len (readreplicas db)) = readreplicas db.
Proof.
  unfold GoInt.len, seqZ. rewrite Nat2Z.id, <- list_fmap_compose.
  apply list_eq. intros i. rewrite list_lookup_fmap.
  destruct (decide (i < length (readreplicas db))%nat) as [Hi|Hi].
  - rewrite (proj2 (lookup_seq 0 _ i i)) by lia. cbn. unfold replica_at.
    rewrite Z.add_0_r, Nat2Z.id.
    destruct (lookup_lt_is_Some_2 (readreplicas db) i Hi) as [r Hr]. by rewrite Hr.
  - rewrite (lookup_ge_None_2 (readreplicas db)) by lia.
    rewrite (lookup_ge_None_2 (seq _ _)) by (rewrite length_seq; lia). done.
Qed.

Lemma occurrences_app i l1 l2 :
  occurrences i (l1 ++ l2) = (occurrences i l1 + occurrences i l2)%nat.
Proof. unfold occurrences. by rewrite List.filter_app, length_app. Qed.

Lemma occurrences_round (i N : nat) :
  occurrences (Z.of_nat i) (Ok <$> seqZ 0 (Z.of_nat N))
  = if decide (i < N)%nat then 1%nat else 0%nat.
Proof.
  induction N as [|N IH].
  - by destruct (decide _); [lia|].
  - rewrite seqZ_S, fmap_app, occurrences_app, IH. cbn.
    destruct (decide (i = N)) as [->|Hne].
    + rewrite bool_decide_eq_true_2 by done. cbn.
      repeat destruct (decide _); lia.
    + rewrite bool_decide_eq_false_2 by (intros [=]; lia). cbn.
      repeat destruct (decide _); lia.
Qed.

(** The loop never finds a replica when all are unavailable. *)
Lemma tries_all_unavailable n db :
  readreplicas db <> [] -> cursor_has_room (Z.of_nat n) db ->
  needHeartbeat db = true ->
  Forall (λ r, r ∈ unavailableReplicas db) (readreplicas db) ->
  roundRobinTries n db
  = (Err ErrNoReplicaAvailable, set_count (count db + Z.of_nat n) db).
Proof.
  revert db. induction n as [|n IH]; intros db Hne [Hlo Hhi] Hhb Hall.
  - cbn. by rewrite Z.add_0_r, set_count_count.
  - cbn [roundRobinTries]. rewrite helper_in_range by (done || lia).
    cbn [needHeartbeat unavailableReplicas set_count]. rewrite Hhb.
    pose proof (len_pos db Hne) as Hlen.
    set (idx := (count db + 1) mod GoInt.len (readreplicas db)).
    assert (0 <= idx < GoInt.len (readreplicas db)) as Hidx
      by (apply Z.mod_pos_bound; lia).
    destruct (lookup_lt_is_Some_2 (readreplicas db) (Z.to_nat idx)) as [r Hr].
    { unfold GoInt.len in Hidx. lia. }
    unfold replica_at. rewrite Hr. cbn.
    rewrite decide_True by exact (Forall_lookup_1 _ _ _ _ Hall Hr).
    rewrite IH by (done || (split; cbn; lia)).
    unfold set_count. cbn. do 2 f_equal. lia.
Qed.

End Selector.

(** ** Construction: proofs *)

Section Construction.

Context {World : Type}.
Variable hPing : positive -> World -> option error * World.

Lemma New_fields g getenv primary replicas w db m w' :
  New hPing g getenv primary replicas w = (Ok (db, m), w') ->
  master db = primary
  /\ readreplicas db = replicas
  /\ count db = -1
  /\ needHeartbeat db = negb (DisableReplicaAutoFailover g)
  /\ stopHeartbeat db = ChanOpen
  /\ primaryInMaintence db = env_true getenv EnvVarPrimaryInMaintenanceKey
  /\ (DisableReplicaAutoFailover g = true -> unavailableReplicas db = ∅ /\ ticker m = None)
  /\ (DisableReplicaAutoFailover g = false ->
        fst (heartbeat hPing replicas w) = Ok (unavailableReplicas db)
        /\ ticker m = Some (DefaultReplicaAutoFailoverInterval g)).
Proof.
  unfold New. destruct (if DoValidateNew g then _ else _); [done|].
  destruct (DisableReplicaAutoFailover g); cbn.
  - intros [= <- <- <-]. cbn. by repeat split.
  - destruct (heartbeat hPing replicas w) as [[s| |] w1]; [|done..].
    destruct (_ <=? 0); [done|]. intros [= <- <- <-]. cbn. by repeat split.
Qed.

End Construction.

(** C2. A router that [New] built over N >= 1 replicas, none of them
    unavailable: the first selection takes index 0 and returns the replica
    there, and 2N selections in a row take the indices 0, ..., N-1,
    0, ..., N-1 in that order, each index twice, and return the replicas
    in list order, twice. *)
Theorem C2_round_robin_two_rounds {World : Type}
    (hPing : positive -> World -> option error * World)
    (g : Globals) (getenv : string -> string) (master : sqlDB)
    (replicas : list sqlDB) (w w' : World) (db : DB) (m : Monitor)
    (g' : Globals) (bypass : list bool) :
  New hPing g getenv master replicas w = (Ok (db, m), w') ->
  (1 <= length replicas)%nat ->
  2 * GoInt.len replicas <= GoInt.max_int ->
  unavailableReplicas db = ∅ ->
  fst (roundRobinIndex db) = Ok 0
  /\ (exists r0, replicas !! 0%nat = Some r0
                 /\ fst (readReplicaRoundRobin g' db bypass) = Ok r0)
  /\ helper_indices (2 * length replicas) db
     = Ok <$> (seqZ 0 (GoInt.len replicas) ++ seqZ 0 (GoInt.len replicas))
  /\ selections g' bypass (2 * length replicas) db = Ok <$> (replicas ++ replicas)
  /\ (forall i, 0 <= i < GoInt.len replicas ->
        occurrences i (helper_indices (2 * length replicas) db) = 2%nat).
Proof.
  intros HNew HN Hroom Hun.
  destruct (New_fields hPing _ _ _ _ _ _ _ _ HNew) as (_ & Hrs & Hc & _).
  assert (readreplicas db <> []) as Hne by (rewrite Hrs; destruct replicas; [cbn in HN; lia|done]).
  pose proof (len_pos db Hne) as Hlen. rewrite Hrs in Hlen.
  assert (cursor_has_room (Z.of_nat (2 * length replicas)) db) as Hroom'.
  { unfold cursor_has_room, GoInt.len in *. lia. }
  assert (helper_indices (2 * length replicas) db
          = Ok <$> (seqZ 0 (GoInt.len replicas) ++ seqZ 0 (GoInt.len replicas))) as Hidx.
  { rewrite helper_indices_run, Hc, Hrs by done. replace (2 * length replicas)%nat
      with (length replicas + length replicas)%nat by lia.
    rewrite fmap_app. apply (two_rounds Ok). lia. }
  repeat split.
  - rewrite roundRobinIndex_in_range, Hc, Hrs by (rewrite ?Hc, ?max_int_value; done).
    cbn. by rewrite Z.mod_0_l by lia.
  - destruct replicas as [|r0 rs]; [cbn in HN; lia|]. exists r0. split; [done|].
    rewrite selector_is_helper, helper_in_range
      by (rewrite ?Hc, ?max_int_value; done).
    cbn. rewrite Hc, Hrs. cbn. rewrite Z.mod_0_l by (unfold GoInt.len in *; lia).
    unfold replica_at. by rewrite Hrs.
  - exact Hidx.
  - rewrite selections_run, Hc, Hrs by done. replace (2 * length replicas)%nat
      with (length replicas + length replicas)%nat by lia.
    etrans; [apply (two_rounds (λ i, Ok (replica_at db i))); lia|].
    rewrite fmap_app, !(list_fmap_compose (replica_at db) Ok).
    change (Z.of_nat (length replicas)) with (GoInt.len replicas).
    by rewrite <- Hrs, !replicas_by_index.
  - intros i Hi. rewrite Hidx, fmap_app, occurrences_app.
    rewrite <- (Z2Nat.id i) by lia. unfold GoInt.len.
    rewrite occurrences_round, decide_True; [done|]. unfold GoInt.len in Hi. lia.
Qed.

Lemma C2_round_robin_two_rounds_witness :
  helper_indices 6 Sample.db3 = [Ok 0; Ok 1; Ok 2; Ok 0; Ok 1; Ok 2]
  /\ selections Sample.g_default [] 6 Sample.db3
     = Ok <$> (Sample.three_replicas ++ Sample.three_replicas).
Proof.
  destruct (C2_round_robin_two_rounds (Sample.steady None) Sample.g_default
              Sample.no_env Sample.primary Sample.three_replicas tt tt Sample.db3
              (mkMonitor (Some (30 * second))) Sample.g_default [])
    as (_ & _ & Hidx & Hsel & _).
  - reflexivity.
  - cbn. lia.
  - by vm_compute.
  - reflexivity.
  - split; [exact Hidx | exact Hsel].
Defined.

(** C3. Health-checked selection over N >= 1 replicas that are all in
    the unavailable set (the cursor having room for N steps within [int])
    returns [ErrNoReplicaAvailable] after the cursor has moved exactly N
    times; it returns no handle, the primary's least of all, and nothing
    about the primary enters the result. *)
Theorem C3_all_replicas_unavailable (g : Globals) (db : DB) (bypass : list bool) :
  (1 <= length (readreplicas db))%nat ->
  needHeartbeat db = true ->
  default false (head bypass) = false ->
  Forall (λ r, r ∈ unavailableReplicas db) (readreplicas db) ->
  cursor_has_room (GoInt.len (readreplicas db)) db ->
  let result := readReplicaRoundRobin g db bypass in
  fst result = Err ErrNoReplicaAvailable
  /\ attempts db (snd result) = GoInt.len (readreplicas db)
  /\ snd result = set_count (count db + GoInt.len (readreplicas db)) db
  /\ fst result <> Ok (master db).
Proof.
  intros HN Hhb Hby Hall Hroom result.
  assert (readreplicas db <> []) as Hne by (destruct (readreplicas db); [cbn in HN; lia|done]).
  pose proof (len_pos db Hne) as Hlen.
  assert (result = (Err ErrNoReplicaAvailable,
                    set_count (count db + GoInt.len (readreplicas db)) db)) as ->.
  { unfold result, readReplicaRoundRobin.
    destruct (Z.eqb_spec (GoInt.len (readreplicas db)) 0) as [?|_]; [lia|].
    rewrite andb_false_r, Hhb, Hby, andb_false_r. cbn [negb orb].
    by apply tries_all_unavailable. }
  cbn. repeat split; [|done]. unfold attempts. cbn. lia.
Qed.

Lemma C3_all_replicas_unavailable_witness :
  readReplicaRoundRobin Sample.g_default Sample.db3_all_down []
  = (Err ErrNoReplicaAvailable, set_count 2 Sample.db3_all_down).
Proof.
  destruct (C3_all_replicas_unavailable Sample.g_default Sample.db3_all_down [])
    as (Hr & _ & Hdb & _).
  - cbn. lia.
  - reflexivity.
  - reflexivity.
  - by vm_compute; repeat constructor.
  - split; by vm_compute.
  - rewrite (surjective_pairing (readReplicaRoundRobin _ _ _)), Hr, Hdb. reflexivity.
Defined.

(** ** The facade: proofs *)

Section Facade.

Implicit Types (db : DB) (g : Globals) (ctx : Context).

Lemma WithPrimary_is_read ctx : UsePrimaryFromContext (WithPrimary ctx) = true.
Proof. unfold UsePrimaryFromContext, WithPrimary, WithValue. cbn. by rewrite decide_True. Qed.

Lemma Background_has_no_directive : UsePrimaryFromContext Background = false.
Proof. reflexivity. Qed.

(** The selector with its health check bypassed. *)
Lemma selector_bypassed g db :
  readReplicaRoundRobin g db [true]
  = if negb (DoValidateNew g) && (GoInt.len (readreplicas db) =? 0)
    then (Err ErrNotProvidedReplicas, db)
    else readReplicaRoundRobinHelper db.
Proof.
  unfold readReplicaRoundRobin. destruct (_ && _); [done|]. cbn.
  by rewrite orb_true_r.
Qed.

Lemma helper_never_errs db e : fst (readReplicaRoundRobinHelper db) <> Err e.
Proof.
  unfold readReplicaRoundRobinHelper, roundRobinIndex.
  destruct (_ =? 0); [done|]. by destruct (GoInt.index _ _).
Qed.

(** All the bypassed selector can end in. *)
Lemma bypassed_outcomes g db :
  let r := fst (readReplicaRoundRobin g db [true]) in
  (exists t, r = Ok t /\ fst (readReplicaRoundRobinHelper db) = Ok t)
  \/ r = Err ErrNotProvidedReplicas
  \/ r = Panic DivideByZero
  \/ r = Panic IndexOutOfRange.
Proof.
  cbn. rewrite selector_bypassed. destruct (_ && _); [by right; left|].
  unfold readReplicaRoundRobinHelper, roundRobinIndex.
  destruct (_ =? 0); [by right; right; left|].
  destruct (GoInt.index _ _) as [t|]; cbn; [left; by exists t | by right; right; right].
Qed.

Lemma QueryRow_outcomes g db query args :
  let o := fst (QueryRow g db query args) in
  (exists h, o = Delegate h (CallQueryRow query args)
             /\ fst (readReplicaRoundRobinHelper db) = Ok (Some h))
  \/ o = Abort NilDereference
  \/ o = Abort (PanicError ErrNotProvidedReplicas)
  \/ o = Abort DivideByZero
  \/ o = Abort IndexOutOfRange.
Proof.
  cbn. unfold QueryRow. pose proof (bypassed_outcomes g db) as Hsel.
  destruct (readReplicaRoundRobin g db [true]) as [r db']. cbn in Hsel.
  destruct Hsel as [(t & -> & Ht) | [-> | [-> | ->]]]; cbn; [|tauto..].
  destruct t as [h|]; cbn; [left; by exists h | tauto].
Qed.

Lemma QueryRowContext_outcomes g db ctx query args :
  let o := fst (QueryRowContext g db ctx query args) in
  (exists h, o = Delegate h (CallQueryRowContext ctx query args)
             /\ if UsePrimaryFromContext ctx && negb (primaryInMaintence db)
                then master db = Some h
                else fst (readReplicaRoundRobinHelper db) = Ok (Some h))
  \/ o = Abort NilDereference
  \/ o = Abort (PanicError ErrNotProvidedPrimary)
  \/ o = Abort (PanicError ErrNotProvidedReplicas)
  \/ o = Abort DivideByZero
  \/ o = Abort IndexOutOfRange.
Proof.
  cbn. unfold QueryRowContext.
  destruct (UsePrimaryFromContext ctx && negb (primaryInMaintence db)).
  - destruct (negb (DoValidateNew g) && _); cbn; [tauto|].
    destruct (master db) as [h|]; cbn; [left; by exists h | tauto].
  - pose proof (bypassed_outcomes g db) as Hsel.
    destruct (readReplicaRoundRobin g db [true]) as [r db']. cbn in Hsel.
    destruct Hsel as [(t & -> & Ht) | [-> | [-> | ->]]]; cbn; [|tauto..].
    destruct t as [h|]; cbn; [left; by exists h | tauto].
Qed.

Lemma validateQuery_rejects f query :
  f query = false -> validateQuery f query = Some ErrNotQuerySQL.
Proof. unfold validateQuery. by intros ->. Qed.

Lemma validateQuery_accepts f query :
  f query = true -> validateQuery f query = None.
Proof. unfold validateQuery. by intros ->. Qed.

Lemma on_primary_maintenance g db c :
  primaryInMaintence db = true -> on_primary g db c = Return ErrPrimaryInMaintenance.
Proof. unfold on_primary. by intros ->. Qed.

Lemma on_primary_absent g db c :
  primaryInMaintence db = false -> master db = None -> DoValidateNew g = false ->
  on_primary g db c = Return ErrNotProvidedPrimary.
Proof. unfold on_primary. by intros -> -> ->. Qed.

End Facade.

(** C1, the claim fails: with the directive in the context and the
    primary out of maintenance, [QueryContext] still answers a query that
    is not read-only with [ErrNotQuerySQL]. *)
Lemma C1_counterexample :
  IsQuerySqlFunc Sample.g_default "delete from t" = false
  /\ UsePrimaryFromContext (WithPrimary Background) = true
  /\ primaryInMaintence Sample.db3 = false
  /\ QueryContext Sample.g_default Sample.db3 (WithPrimary Background) "delete from t" []
     = (Return ErrNotQuerySQL, Sample.db3).
Proof. by vm_compute. Qed.

(** C1, amended. With the directive in the context and the primary out
    of maintenance, [QueryContext] validates first: a query that is not
    read-only gets [ErrNotQuerySQL] and nothing else happens; a read-only
    query goes to the primary, when there is one, and no replica is
    selected. *)
Theorem C1_force_primary_after_validation (g : Globals) (db : DB) (ctx : Context)
    (query : string) (args : list arg) :
  UsePrimaryFromContext ctx = true ->
  primaryInMaintence db = false ->
  (IsQuerySqlFunc g query = false ->
     QueryContext g db ctx query args = (Return ErrNotQuerySQL, db))
  /\ (IsQuerySqlFunc g query = true -> forall h, master db = Some h ->
        QueryContext g db ctx query args
        = (Delegate h (CallQueryContext ctx query args), db)).
Proof.
  intros Hctx Hm. unfold QueryContext. split.
  - intros Hq. by rewrite validateQuery_rejects.
  - intros Hq h Hh. rewrite validateQuery_accepts, Hctx, Hm, Hh by done. cbn.
    by rewrite andb_false_r.
Qed.

Lemma C1_force_primary_after_validation_witness :
  QueryContext Sample.g_default Sample.db3 (WithPrimary Background) "update t set x=1" []
  = (Return ErrNotQuerySQL, Sample.db3)
  /\ QueryContext Sample.g_default Sample.db3 (WithPrimary Background) "select 1" []
     = (Delegate 1 (CallQueryContext (WithPrimary Background) "select 1" []), Sample.db3).
Proof.
  split.
  - apply (C1_force_primary_after_validation Sample.g_default Sample.db3
             (WithPrimary Background) "update t set x=1" []); reflexivity.
  - apply (C1_force_primary_after_validation Sample.g_default Sample.db3
             (WithPrimary Background) "select 1" []); reflexivity.
Defined.

(** C4, the claim fails: with validation enabled and no replicas the
    selector does not answer [ErrNotProvidedReplicas]; health-checked it
    answers [ErrNoReplicaAvailable], and bypassed it divides by zero. *)
Lemma C4_counterexample :
  DoValidateNew Sample.g_validating = true
  /\ readreplicas Sample.db_no_replicas = []
  /\ fst (readReplicaRoundRobin Sample.g_validating Sample.db_no_replicas [])
     = Err ErrNoReplicaAvailable
  /\ fst (readReplicaRoundRobin Sample.g_validating Sample.db_no_replicas [])
     <> Err ErrNotProvidedReplicas
  /\ fst (readReplicaRoundRobin Sample.g_validating Sample.db_no_replicas [true])
     = Panic DivideByZero.
Proof. by vm_compute. Qed.

(** C4, amended. It is with validation relaxed that the selector answers
    an empty replica list with [ErrNotProvidedReplicas], leaving the
    cursor alone; with validation enabled the empty list is refused
    where the router is built: [New] panics with the error of
    [validateNew], which is [ErrNotProvidedReplicas] when a primary is
    given. *)
Theorem C4_missing_replicas {World : Type}
    (hPing : positive -> World -> option error * World) (g : Globals) :
  (DoValidateNew g = false -> forall db bypass, readreplicas db = [] ->
     readReplicaRoundRobin g db bypass = (Err ErrNotProvidedReplicas, db))
  /\ (DoValidateNew g = true -> forall getenv master w,
        exists e, validateNew master [] = Some e
                  /\ (master <> None -> e = ErrNotProvidedReplicas)
                  /\ New hPing g getenv master [] w = (Panic (PanicError e), w)).
Proof.
  split.
  - intros Hv db bypass Hrs. unfold readReplicaRoundRobin. by rewrite Hv, Hrs.
  - intros Hv getenv master w. unfold New. rewrite Hv.
    destruct master as [h|]; cbn.
    + exists ErrNotProvidedReplicas. by repeat split.
    + exists ErrNotProvidedPrimary. by repeat split.
Qed.

Lemma C4_missing_replicas_witness :
  readReplicaRoundRobin Sample.g_default Sample.db_no_replicas []
  = (Err ErrNotProvidedReplicas, Sample.db_no_replicas)
  /\ exists e, New (Sample.steady None) Sample.g_validating Sample.no_env Sample.primary [] tt
               = (Panic (PanicError e), tt).
Proof.
  destruct (C4_missing_replicas (Sample.steady None) Sample.g_default) as [Hrelaxed _].
  destruct (C4_missing_replicas (Sample.steady None) Sample.g_validating) as [_ Hstrict].
  split.
  - apply Hrelaxed; reflexivity.
  - destruct (Hstrict eq_refl Sample.no_env Sample.primary tt) as (e & _ & _ & HNew).
    exists e. exact HNew.
Defined.

(** C6. With the maintenance flag set, [Exec], [ExecContext], [Begin],
    [BeginTx], and [Prepare] and [PrepareContext] of a query that is not
    read-only return [ErrPrimaryInMaintenance], no handle being called and
    the router left as it was, also when the primary is absent; with the
    flag clear, the primary absent and validation relaxed they return
    [ErrNotProvidedPrimary]. *)
Theorem C6_primary_checks (g : Globals) (db : DB) (o : op) :
  targets_primary g o = true ->
  (primaryInMaintence db = true ->
     run_op g db o = (Return ErrPrimaryInMaintenance, db))
  /\ (primaryInMaintence db = false -> master db = None -> DoValidateNew g = false ->
        run_op g db o = (Return ErrNotProvidedPrimary, db)).
Proof.
  intros Ho. split.
  - intros Hm. destruct o; cbn in Ho; try done; cbn;
      unfold Begin, BeginTx, Exec, ExecContext, Prepare, PrepareContext;
      rewrite ?(proj1 (negb_true_iff _) Ho); cbn [andb];
      by rewrite on_primary_maintenance.
  - intros Hm Hp Hv. destruct o; cbn in Ho; try done; cbn;
      unfold Begin, BeginTx, Exec, ExecContext, Prepare, PrepareContext;
      rewrite ?(proj1 (negb_true_iff _) Ho); cbn [andb];
      by rewrite on_primary_absent.
Qed.

Lemma C6_primary_checks_witness :
  Exec Sample.g_default Sample.db3_maintenance "delete from t" []
  = (Return ErrPrimaryInMaintenance, Sample.db3_maintenance)
  /\ PrepareContext Sample.g_default Sample.db3_no_primary Background "insert into t values (1)"
     = (Return ErrNotProvidedPrimary, Sample.db3_no_primary).
Proof.
  split.
  - apply (C6_primary_checks Sample.g_default Sample.db3_maintenance
             (OpExec "delete from t" [])); reflexivity.
  - apply (C6_primary_checks Sample.g_default Sample.db3_no_primary
             (OpPrepareContext Background "insert into t values (1)")); reflexivity.
Defined.

(** C10. [QueryRow] and [QueryRowContext] never consult the classifier:
    whatever it says of the query they signal no [ErrNotQuerySQL], and
    when they call a handle they pass the query and its arguments on as
    given, to the replica the helper selects with the health check
    bypassed, or to the primary under the force-primary directive: both
    do call that handle, [QueryRow] and, without the directive or under
    maintenance, [QueryRowContext] the replica next in the round, and
    [QueryRowContext] under the directive the primary, when it is there
    and not in maintenance, the cursor then staying where it was. *)
Theorem C10_query_row_unvalidated (g : Globals) (db : DB) (ctx : Context)
    (query : string) (args : list arg) :
  (forall f,
     QueryRow (set_IsQuerySqlFunc f g) db query args = QueryRow g db query args
     /\ QueryRowContext (set_IsQuerySqlFunc f g) db ctx query args
        = QueryRowContext g db ctx query args)
  /\ ~ signals ErrNotQuerySQL (fst (QueryRow g db query args))
  /\ ~ signals ErrNotQuerySQL (fst (QueryRowContext g db ctx query args))
  /\ (forall h c, fst (QueryRow g db query args) = Delegate h c ->
        c = CallQueryRow query args
        /\ fst (readReplicaRoundRobinHelper db) = Ok (Some h))
  /\ (forall h c, fst (QueryRowContext g db ctx query args) = Delegate h c ->
        c = CallQueryRowContext ctx query args
        /\ if UsePrimaryFromContext ctx && negb (primaryInMaintence db)
           then master db = Some h
           else fst (readReplicaRoundRobinHelper db) = Ok (Some h))
  /\ (forall h, readreplicas db <> [] -> -1 <= count db < GoInt.max_int ->
        replica_at db ((count db + 1) mod GoInt.len (readreplicas db)) = Some h ->
        QueryRow g db query args
        = (Delegate h (CallQueryRow query args), set_count (count db + 1) db)
        /\ (UsePrimaryFromContext ctx && negb (primaryInMaintence db) = false ->
              QueryRowContext g db ctx query args
              = (Delegate h (CallQueryRowContext ctx query args),
                 set_count (count db + 1) db)))
  /\ (forall h, UsePrimaryFromContext ctx = true -> primaryInMaintence db = false ->
        master db = Some h ->
        QueryRowContext g db ctx query args
        = (Delegate h (CallQueryRowContext ctx query args), db)).
Proof.
  pose proof (QueryRow_outcomes g db query args) as Hrow.
  pose proof (QueryRowContext_outcomes g db ctx query args) as Hctx.
  cbn in Hrow, Hctx. unfold signals.
  split; [by intros f|]. split; [|split; [|split; [|split; [|split; [|]]]]].
  - destruct Hrow as [(h & -> & _) | [-> | [-> | [-> | ->]]]]; intros [?|?]; congruence.
  - destruct Hctx as [(h & -> & _) | [-> | [-> | [-> | [-> | ->]]]]];
      intros [?|?]; congruence.
  - intros h c Hd. rewrite Hd in Hrow.
    destruct Hrow as [(h' & [= <- <-] & Hsel) | [? | [? | [? | ?]]]]; done.
  - intros h c Hd. rewrite Hd in Hctx.
    destruct Hctx as [(h' & [= <- <-] & Hsel) | [? | [? | [? | [? | ?]]]]]; done.
  - intros h Hne Hc Hat. pose proof (len_pos db Hne) as Hlen.
    unfold QueryRow, QueryRowContext. rewrite selector_bypassed.
    destruct (Z.eqb_spec (GoInt.len (readreplicas db)) 0) as [?|_]; [lia|].
    rewrite andb_false_r, helper_in_range, Hat by done. cbn.
    split; [done|]. by intros ->.
  - intros h Hdir Hm Hh. unfold QueryRowContext. rewrite Hdir, Hm, Hh. cbn.
    by rewrite andb_false_r.
Qed.

Lemma C10_query_row_unvalidated_witness :
  QueryRow Sample.g_default Sample.db3 "delete from t" []
  = (Delegate 2 (CallQueryRow "delete from t" []), set_count 0 Sample.db3)
  /\ QueryRowContext Sample.g_default Sample.db3 (WithPrimary Background) "delete from t" []
     = (Delegate 1 (CallQueryRowContext (WithPrimary Background) "delete from t" []),
        Sample.db3).
Proof.
  destruct (C10_query_row_unvalidated Sample.g_default Sample.db3 Background
              "delete from t" []) as (_ & _ & _ & _ & _ & Hfwd & _).
  destruct (C10_query_row_unvalidated Sample.g_default Sample.db3 (WithPrimary Background)
              "delete from t" []) as (_ & _ & _ & _ & _ & _ & Hprimary).
  split.
  - apply (Hfwd 2%positive); [done | by vm_compute | reflexivity].
  - apply (Hprimary 1%positive); reflexivity.
Defined.

(** ** The monitor: proofs *)

Section MonitorFacts.

Context {World : Type}.
Variable hPing : positive -> World -> option error * World.

Implicit Types (db : DB) (w : World) (hs : list positive).

(** A heartbeat adds replicas of the list it is given, nothing else. *)
Lemma heartbeat_range_subset rs acc w s w' :
  heartbeat_range hPing rs acc w = (Ok s, w') -> s ⊆ acc ∪ list_to_set rs.
Proof.
  revert acc w. induction rs as [|[h|] rs IH]; intros acc w; cbn.
  - intros [= <- <-]. set_solver.
  - destruct (hPing h w) as [[e|] w1]; intros H%IH; set_solver.
  - done.
Qed.

Lemma heartbeat_subset rs w s w' :
  heartbeat hPing rs w = (Ok s, w') -> s ⊆ list_to_set rs.
Proof. intros H%heartbeat_range_subset. set_solver. Qed.

(** A heartbeat pings every replica once, in order, and keeps those
    whose ping failed. *)
Lemma heartbeat_range_all hs acc w :
  heartbeat_range hPing (Some <$> hs) acc w
  = (Ok (list_to_set (failed hs (fst (ping_all hPing hs w))) ∪ acc),
     snd (ping_all hPing hs w)).
Proof.
  revert acc w. induction hs as [|h hs IH]; intros acc w; cbn.
  - f_equal. f_equal. set_solver.
  - destruct (hPing h w) as [[e|] w1]. all: rewrite IH.
    all: destruct (ping_all hPing hs w1) as [answers w2]; cbn.
    all: f_equal; f_equal; set_solver.
Qed.

Lemma heartbeat_all hs w :
  heartbeat hPing (Some <$> hs) w
  = (Ok (list_to_set (failed hs (fst (ping_all hPing hs w)))),
     snd (ping_all hPing hs w)).
Proof.
  unfold heartbeat. rewrite heartbeat_range_all. f_equal. f_equal. set_solver.
Qed.

(** What a tick leaves. *)
Lemma tick_result m db w db' w' :
  monitor_turn hPing m WakeTick db w = (Ok (Some db'), w') ->
  exists s, heartbeat hPing (readreplicas db) w = (Ok s, w')
            /\ db' = set_unavailableReplicas s db.
Proof.
  unfold monitor_turn. destruct (ticker m); [|done].
  destruct (heartbeat hPing (readreplicas db) w) as [[s| |] w1]; [|done..].
  intros [= <- <-]. by exists s.
Qed.

(** The selector moves the cursor and nothing else. *)
Lemma helper_frame db : snd (readReplicaRoundRobinHelper db) = set_count (GoInt.incr (count db)) db.
Proof.
  unfold readReplicaRoundRobinHelper, roundRobinIndex.
  destruct (_ =? 0); [done|]. by destruct (GoInt.index _ _).
Qed.

Lemma tries_frame n db : same_replica_state db (snd (roundRobinTries n db)).
Proof.
  revert db. induction n as [|n IH]; intros db; [done|]. cbn [roundRobinTries].
  pose proof (helper_frame db) as Hf.
  destruct (readReplicaRoundRobinHelper db) as [[r| |] db1]; cbn in Hf; subst db1;
    [|done..].
  destruct (needHeartbeat _); [|done]. destruct (decide _); [|done].
  destruct (IH (set_count (GoInt.incr (count db)) db)) as [H1 H2]. by split.
Qed.

Lemma selector_frame g db bypass :
  same_replica_state db (snd (readReplicaRoundRobin g db bypass)).
Proof.
  unfold readReplicaRoundRobin. destruct (_ && _); [done|].
  destruct (_ || _); [by rewrite helper_frame | apply tries_frame].
Qed.

Lemma run_op_frame g db o : same_replica_state db (snd (run_op g db o)).
Proof.
  destruct o; cbn;
    unfold Query, QueryContext, QueryRow, QueryRowContext, Begin, BeginTx,
      Exec, ExecContext, Prepare, PrepareContext;
    repeat match goal with
      | |- context [validateQuery ?f ?q] => destruct (validateQuery f q)
      | |- context [readReplicaRoundRobin ?g ?db ?b] =>
          pose proof (selector_frame g db b);
          destruct (readReplicaRoundRobin g db b) as [[?| |] ?]
      | |- context [if ?b then _ else _] => destruct b
      end; done.
Qed.

End MonitorFacts.

(** ** Reachable routers: proofs *)

Section ReachableFacts.

Context {World : Type}.
Variable hPing : positive -> World -> option error * World.
Variable hClose : positive -> World -> option error * World.

Implicit Types (db : DB) (w : World).

Lemma Close_frame db w : same_replica_state db (snd (Close hClose db w)).
Proof.
  unfold Close. destruct (stopHeartbeat db); [|done].
  destruct (if negb _ then _ else _); done.
Qed.

Lemma reachable_subset db :
  reachable hPing hClose db ->
  unavailableReplicas db ⊆ list_to_set (readreplicas db).
Proof.
  induction 1 as [g getenv primary replicas w db m w' HNew
                 | g o db _ IH | m db w db' w' _ IH Htick | db w _ IH].
  - destruct (New_fields hPing _ _ _ _ _ _ _ _ HNew)
      as (_ & -> & _ & _ & _ & _ & Hoff & Hon).
    destruct (DisableReplicaAutoFailover g).
    + destruct (Hoff eq_refl) as [-> _]. set_solver.
    + destruct (Hon eq_refl) as [Hhb _].
      destruct (heartbeat hPing replicas w) as [r w1] eqn:Hrun. cbn in Hhb. subst r.
      by eapply heartbeat_subset.
  - destruct (run_op_frame g db o) as [-> ->]. exact IH.
  - destruct (tick_result hPing _ _ _ _ _ Htick) as (s & Hhb & ->). cbn.
    by eapply heartbeat_subset.
  - destruct (Close_frame db w) as [-> ->]. exact IH.
Qed.

End ReachableFacts.

(** ** Close: proofs *)

Section CloseFacts.

Context {World : Type}.
Variable hClose : positive -> World -> option error * World.

Implicit Types (db : DB) (w : World) (hs : list positive).

(** Closing in a row: every handle is closed, the errors pile up. *)
Lemma close_range_all hs errs tr w :
  close_range hClose (Some <$> hs) (errs, tr, w)
  = Ok (errs ++ errors_of (fst (close_all hClose hs w)),
        tr ++ (EvClose <$> hs),
        snd (close_all hClose hs w)).
Proof.
  revert errs tr w. induction hs as [|h hs IH]; intros errs tr w; cbn.
  - by rewrite !app_nil_r.
  - destruct (hClose h w) as [[e|] w1]. all: rewrite IH.
    all: destruct (close_all hClose hs w1) as [answers w2]; cbn.
    all: unfold multierr_Append, errors_of; cbn.
    all: by rewrite <- ?app_assoc.
Qed.

Lemma Close_is_range db w :
  stopHeartbeat db = ChanOpen ->
  Close hClose db w
  = (close_range hClose (close_targets db) ([], [EvStopHeartbeat], w),
     set_stopHeartbeat ChanClosed db).
Proof.
  intros Hopen. unfold Close, close_targets. rewrite Hopen.
  destruct (primaryInMaintence db); cbn; [done|].
  destruct (master db) as [h|]; cbn; [|done].
  by destruct (hClose h w) as [[e|] w1].
Qed.

Lemma errors_of_none answers :
  Forall (λ a, a = None) answers -> errors_of answers = [].
Proof. induction 1 as [|a answers -> _ IH]; [done|]. exact IH. Qed.

Lemma length_close_all hs w : length (fst (close_all hClose hs w)) = length hs.
Proof.
  revert w. induction hs as [|h hs IH]; intros w; cbn; [done|].
  destruct (hClose h w) as [e w1]. specialize (IH w1).
  destruct (close_all hClose hs w1). cbn in *. by rewrite IH.
Qed.

End CloseFacts.

(** C7, what the code does. With [DisableReplicaAutoFailover] set, [New]
    pings nothing and makes no ticker, yet starts its goroutine all the
    same; the goroutine's first [select] reads [ticker.C] through the nil
    ticker and panics, whatever would have woken it. *)
Theorem C7_goroutine_reads_nil_ticker {World : Type}
    (hPing : positive -> World -> option error * World)
    (g : Globals) (getenv : string -> string) (primary : sqlDB)
    (replicas : list sqlDB) (w w' : World) (db : DB) (m : Monitor) :
  DisableReplicaAutoFailover g = true ->
  New hPing g getenv primary replicas w = (Ok (db, m), w') ->
  needHeartbeat db = false
  /\ w' = w
  /\ ticker m = None
  /\ forall wk db1 w1, monitor_turn hPing m wk db1 w1 = (Panic NilDereference, w1).
Proof.
  intros Hoff HNew.
  destruct (New_fields hPing _ _ _ _ _ _ _ _ HNew) as (_ & _ & _ & Hhb & _ & _ & Hnone & _).
  destruct (Hnone Hoff) as [_ Htk].
  repeat split.
  - by rewrite Hhb, Hoff.
  - revert HNew. unfold New. rewrite Hoff.
    destruct (if DoValidateNew g then _ else _); [done|]. cbn. by intros [= _ _ ->].
  - exact Htk.
  - intros wk db1 w1. unfold monitor_turn. by rewrite Htk.
Qed.

Lemma C7_goroutine_reads_nil_ticker_witness :
  exists db m,
    New (Sample.steady None) Sample.g_no_failover Sample.no_env Sample.primary
        Sample.three_replicas tt = (Ok (db, m), tt)
    /\ monitor_turn (Sample.steady None) m WakeTick db tt = (Panic NilDereference, tt)
    /\ monitor_turn (Sample.steady None) m WakeStop db tt = (Panic NilDereference, tt).
Proof.
  eexists _, _. split; [reflexivity|].
  destruct (C7_goroutine_reads_nil_ticker (Sample.steady None) Sample.g_no_failover
              Sample.no_env Sample.primary Sample.three_replicas tt tt _ _
              eq_refl eq_refl) as (_ & _ & _ & Hturn).
  split; apply Hturn.
Defined.

(** C8. A first [Close] of a router whose handles to close are all
    there closes the stop channel of the monitor first, then calls
    [Close] on the primary, unless it is in maintenance, and on every
    replica in list order, each exactly once whatever the earlier ones
    answered, and returns the errors they answered, combined in that
    order: nil when none failed.  A monitor woken by the stop returns. *)
Theorem C8_Close_closes_all {World : Type}
    (hPing hClose : positive -> World -> option error * World)
    (db : DB) (w : World) (hs : list positive) :
  stopHeartbeat db = ChanOpen ->
  close_targets db = Some <$> hs ->
  let answers := fst (close_all hClose hs w) in
  Close hClose db w
  = (Ok (errors_of answers, EvStopHeartbeat :: (EvClose <$> hs),
         snd (close_all hClose hs w)),
     set_stopHeartbeat ChanClosed db)
  /\ length answers = length hs
  /\ (Forall (λ a, a = None) answers -> errors_of answers = [])
  /\ (forall tk db1 w1,
        monitor_turn hPing (mkMonitor (Some tk)) WakeStop db1 w1 = (Ok None, w1)).
Proof.
  intros Hopen Htargets answers. repeat split.
  - rewrite Close_is_range, Htargets, close_range_all by done. reflexivity.
  - apply length_close_all.
  - apply errors_of_none.
Qed.

Lemma C8_Close_closes_all_witness :
  Close (Sample.failing [1; 3]%positive) Sample.db3 tt
  = (Ok ([ErrDriver 1; ErrDriver 3],
         [EvStopHeartbeat; EvClose 1; EvClose 2; EvClose 3; EvClose 4], tt),
     set_stopHeartbeat ChanClosed Sample.db3)
  /\ Close (Sample.steady None) Sample.db3_maintenance tt
     = (Ok ([], [EvStopHeartbeat; EvClose 2; EvClose 3; EvClose 4], tt),
        set_stopHeartbeat ChanClosed Sample.db3_maintenance).
Proof.
  split.
  - apply (C8_Close_closes_all (Sample.steady None) (Sample.failing [1; 3]%positive)
             Sample.db3 tt [1; 2; 3; 4]%positive); reflexivity.
  - apply (C8_Close_closes_all (Sample.steady None) (Sample.steady None)
             Sample.db3_maintenance tt [2; 3; 4]%positive); reflexivity.
Defined.

(** C9. In every router a program can reach, the unavailable set holds
    replicas of the configured list only; and a tick of the monitor
    leaves as the unavailable set what one heartbeat over the whole list
    returns, the replicas whose ping of this pass failed, whatever the set
    was before. *)
Theorem C9_unavailable_set {World : Type}
    (hPing hClose : positive -> World -> option error * World) (db : DB) :
  reachable hPing hClose db ->
  unavailableReplicas db ⊆ list_to_set (readreplicas db)
  /\ forall m w db' w',
       monitor_turn hPing m WakeTick db w = (Ok (Some db'), w') ->
       heartbeat hPing (readreplicas db) w = (Ok (unavailableReplicas db'), w')
       /\ db' = set_unavailableReplicas (unavailableReplicas db') db
       /\ (forall previous,
             monitor_turn hPing m WakeTick (set_unavailableReplicas previous db) w
             = (Ok (Some db'), w'))
       /\ (forall hs, readreplicas db = Some <$> hs ->
             unavailableReplicas db'
             = list_to_set (failed hs (fst (ping_all hPing hs w)))).
Proof.
  intros Hreach. split; [by apply (reachable_subset hPing hClose)|].
  intros m w db' w' Htick.
  destruct (tick_result hPing _ _ _ _ _ Htick) as (s & Hhb & ->). cbn.
  repeat split; [done|..].
  - intros previous. revert Htick. unfold monitor_turn.
    destruct (ticker m); [|done]. intros _.
    change (readreplicas (set_unavailableReplicas previous db)) with (readreplicas db).
    by rewrite Hhb.
  - intros hs Hhs. rewrite Hhs, heartbeat_all in Hhb. by injection Hhb as <- _.
Qed.

Lemma C9_unavailable_set_witness :
  unavailableReplicas Sample.db3_one_down ⊆ list_to_set (readreplicas Sample.db3_one_down)
  /\ monitor_turn (Sample.steady None) (mkMonitor (Some (30 * second))) WakeTick
       Sample.db3_one_down tt
     = (Ok (Some Sample.db3), tt).
Proof.
  assert (reachable (Sample.failing [3%positive]) (Sample.steady None) Sample.db3_one_down)
    as Hreach.
  { apply (reach_New _ _ Sample.g_default Sample.no_env Sample.primary
             Sample.three_replicas tt Sample.db3_one_down
             (mkMonitor (Some (30 * second))) tt).
    by vm_compute. }
  destruct (C9_unavailable_set _ _ _ Hreach) as [Hsub _].
  split; [exact Hsub | by vm_compute].
Defined.

(** ** More on the selector *)

Section SelectorMore.

Implicit Types (db : DB) (g : Globals).

Lemma helper_returns_member db r db' :
  readReplicaRoundRobinHelper db = (Ok r, db') ->
  r ∈ readreplicas db /\ db' = set_count (GoInt.incr (count db)) db.
Proof.
  unfold readReplicaRoundRobinHelper, roundRobinIndex.
  destruct (_ =? 0); [done|].
  unfold GoInt.index. destruct (_ <? 0); [done|].
  destruct (readreplicas db !! _) as [r'|] eqn:Hr; [|done].
  intros [= <- <-]. split; [by eapply list_elem_of_lookup_2 | done].
Qed.

Lemma tries_result n db r db' :
  roundRobinTries n db = (Ok r, db') ->
  r ∈ readreplicas db
  /\ (needHeartbeat db = true -> r ∉ unavailableReplicas db)
  /\ same_but_cursor db db'.
Proof.
  revert db. induction n as [|n IH]; intros db; [done|]. cbn [roundRobinTries].
  destruct (readReplicaRoundRobinHelper db) as [[r1| |] db1] eqn:Hh; [|done..].
  destruct (helper_returns_member _ _ _ Hh) as [Hin ->].
  cbn [needHeartbeat unavailableReplicas set_count].
  destruct (needHeartbeat db) eqn:Hhb.
  - destruct (decide (r1 ∈ unavailableReplicas db)) as [Hun|Hun].
    + intros (H1 & H2 & H3)%IH. cbn in *. split; [done|].
      split; [intros _; by apply H2|].
      unfold same_but_cursor in *. by rewrite H3.
    + intros [= <- <-]. by repeat split.
  - intros [= <- <-]. by repeat split.
Qed.

Lemma tries_first_available j : forall n db,
  readreplicas db <> [] -> cursor_has_room (Z.of_nat j + 1) db ->
  needHeartbeat db = true -> (j < n)%nat ->
  (forall i, (i < j)%nat ->
     replica_at db ((count db + 1 + Z.of_nat i) mod GoInt.len (readreplicas db))
     ∈ unavailableReplicas db) ->
  replica_at db ((count db + 1 + Z.of_nat j) mod GoInt.len (readreplicas db))
  ∉ unavailableReplicas db ->
  roundRobinTries n db
  = (Ok (replica_at db ((count db + 1 + Z.of_nat j) mod GoInt.len (readreplicas db))),
     set_count (count db + 1 + Z.of_nat j) db).
Proof.
  induction j as [|j IH]; intros n db Hne [Hlo Hhi] Hhb Hn Hbefore Hat;
    (destruct n as [|n]; [lia|]); cbn [roundRobinTries];
    rewrite helper_in_range by (done || lia);
    cbn [needHeartbeat unavailableReplicas set_count]; rewrite Hhb.
  - rewrite Z.add_0_r in *. by rewrite decide_False.
  - rewrite decide_True by (specialize (Hbefore 0%nat); rewrite Z.add_0_r in Hbefore;
                            apply Hbefore; lia).
    rewrite (IH n (set_count (count db + 1) db)); cbn; try done; try lia.
    + unfold set_count, replica_at. cbn.
      by replace (count db + 1 + 1 + Z.of_nat j) with (count db + 1 + Z.of_nat (S j)) by lia.
    + split; cbn; lia.
    + intros i Hi. specialize (Hbefore (S i)). unfold replica_at in *. cbn.
      replace (count db + 1 + 1 + Z.of_nat i) with (count db + 1 + Z.of_nat (S i)) by lia.
      apply Hbefore. lia.
    + unfold replica_at in *. cbn.
      by replace (count db + 1 + 1 + Z.of_nat j) with (count db + 1 + Z.of_nat (S j)) by lia.
Qed.

Lemma selector_health_checked g db bypass :
  needHeartbeat db = true -> default false (head bypass) = false ->
  readReplicaRoundRobin g db bypass
  = if negb (DoValidateNew g) && (GoInt.len (readreplicas db) =? 0)
    then (Err ErrNotProvidedReplicas, db)
    else roundRobinTries (length (readreplicas db)) db.
Proof.
  intros Hhb Hby. unfold readReplicaRoundRobin. destruct (_ && _); [done|].
  by rewrite Hhb, Hby, andb_false_r.
Qed.

Lemma selector_result g db bypass r db' :
  readReplicaRoundRobin g db bypass = (Ok r, db') ->
  r ∈ readreplicas db /\ same_but_cursor db db'.
Proof.
  unfold readReplicaRoundRobin. destruct (_ && _); [done|].
  destruct (_ || _).
  - intros [Hin ->]%helper_returns_member. by split.
  - intros (? & _ & ?)%tries_result. by split.
Qed.

Lemma selector_result_available g db bypass r db' :
  needHeartbeat db = true -> default false (head bypass) = false ->
  readReplicaRoundRobin g db bypass = (Ok r, db') ->
  r ∉ unavailableReplicas db.
Proof.
  intros Hhb Hby. rewrite selector_health_checked by done.
  destruct (_ && _); [done|].
  intros (_ & Hav & _)%tries_result. by apply Hav.
Qed.

End SelectorMore.

(** X1. What the selector returns is a replica of the list, never
    anything else, and the call leaves the router as it was but for the
    cursor; with the heartbeat on and the health check not bypassed, the
    replica returned is not in the unavailable set. *)
Theorem X1_selector_skips_unavailable (g : Globals) (db db' : DB) (bypass : list bool)
    (r : sqlDB) :
  readReplicaRoundRobin g db bypass = (Ok r, db') ->
  r ∈ readreplicas db
  /\ same_but_cursor db db'
  /\ (needHeartbeat db = true -> default false (head bypass) = false ->
        r ∉ unavailableReplicas db).
Proof.
  intros Hsel. destruct (selector_result _ _ _ _ _ Hsel) as [Hin Hsame].
  repeat split; try done. intros Hhb Hby.
  by eapply selector_result_available.
Qed.

Lemma X1_selector_skips_unavailable_witness :
  Some 3%positive ∈ readreplicas Cases.db3_first_down
  /\ Some 3%positive ∉ unavailableReplicas Cases.db3_first_down.
Proof.
  destruct (X1_selector_skips_unavailable Sample.g_default Cases.db3_first_down
              (set_count 1 Cases.db3_first_down) [] (Some 3%positive))
    as (Hin & _ & Hav).
  - by vm_compute.
  - split; [exact Hin | by apply Hav].
Defined.

(** X2. Health-checked selection fails over: when the replicas at the
    next [j] places of the round are unavailable and the one after them
    is not, with [j] less than the number of replicas, the selector
    returns that one and the cursor has moved [j + 1] times. *)
Theorem X2_selector_fails_over (g : Globals) (db : DB) (bypass : list bool) (j : nat) :
  needHeartbeat db = true ->
  default false (head bypass) = false ->
  (j < length (readreplicas db))%nat ->
  cursor_has_room (Z.of_nat j + 1) db ->
  (forall i, (i < j)%nat ->
     replica_at db ((count db + 1 + Z.of_nat i) mod GoInt.len (readreplicas db))
     ∈ unavailableReplicas db) ->
  replica_at db ((count db + 1 + Z.of_nat j) mod GoInt.len (readreplicas db))
  ∉ unavailableReplicas db ->
  readReplicaRoundRobin g db bypass
  = (Ok (replica_at db ((count db + 1 + Z.of_nat j) mod GoInt.len (readreplicas db))),
     set_count (count db + 1 + Z.of_nat j) db).
Proof.
  intros Hhb Hby Hj Hroom Hbefore Hat.
  assert (readreplicas db <> []) as Hne by (destruct (readreplicas db); [cbn in Hj; lia|done]).
  pose proof (len_pos db Hne) as Hlen.
  rewrite selector_health_checked by done.
  destruct (Z.eqb_spec (GoInt.len (readreplicas db)) 0) as [?|_]; [lia|].
  rewrite andb_false_r. by apply tries_first_available.
Qed.

Lemma X2_selector_fails_over_witness :
  readReplicaRoundRobin Sample.g_default Cases.db3_first_down []
  = (Ok (Some 3%positive), set_count 1 Cases.db3_first_down).
Proof.
  apply (X2_selector_fails_over Sample.g_default Cases.db3_first_down [] 1).
  - reflexivity.
  - reflexivity.
  - cbn. lia.
  - by vm_compute.
  - intros [|i] Hi; [by vm_compute | lia].
  - by vm_compute.
Defined.

(** X3. The cursor is an [int] and wraps: at the largest [int] the next
    selection of the helper sets it to the smallest, and the remainder of
    that by the number of replicas is negative unless the number divides
    2^63, in which case the replica at index 0 is returned; otherwise the
    indexing panics. *)
Theorem X3_cursor_wraps (db : DB) :
  count db = GoInt.max_int ->
  readreplicas db <> [] ->
  count (snd (readReplicaRoundRobinHelper db)) = GoInt.min_int
  /\ fst (readReplicaRoundRobinHelper db)
     = if 2 ^ 63 mod GoInt.len (readreplicas db) =? 0
       then Ok (replica_at db 0)
       else Panic IndexOutOfRange.
Proof.
  intros Hc Hne. pose proof (len_pos db Hne) as Hlen.
  rewrite helper_frame. split; [cbn; by rewrite Hc|].
  unfold readReplicaRoundRobinHelper, roundRobinIndex. rewrite Hc.
  destruct (Z.eqb_spec (GoInt.len (readreplicas db)) 0) as [?|_]; [lia|].
  change (GoInt.incr GoInt.max_int) with (- 2 ^ 63).
  rewrite Z.rem_opp_l, Z.rem_mod_nonneg by lia.
  pose proof (Z.mod_pos_bound (2 ^ 63) _ Hlen) as Hb.
  destruct (Z.eqb_spec (2 ^ 63 mod GoInt.len (readreplicas db)) 0) as [H0|H0].
  - rewrite H0. cbn. unfold GoInt.index, replica_at. cbn.
    destruct (readreplicas db) as [|r0 rs]; done.
  - unfold GoInt.index. destruct (Z.ltb_spec (- (2 ^ 63 mod GoInt.len (readreplicas db))) 0);
      [done | lia].
Qed.

Lemma X3_cursor_wraps_witness :
  fst (readReplicaRoundRobinHelper Cases.db3_last_count) = Panic IndexOutOfRange.
Proof.
  destruct (X3_cursor_wraps Cases.db3_last_count) as [_ H]; [reflexivity | done |].
  rewrite H. reflexivity.
Defined.

(** ** Ping and the pool settings: proofs *)

Section PingFacts.

Context {World : Type}.

Implicit Types (db : DB) (g : Globals) (w : World) (hs : list positive).

Lemma ping_range_stops (ping : positive -> World -> option error * World) hs :
  forall tr w r tr' w',
  ping_range ping (Some <$> hs) tr w = (r, tr', w') ->
  exists k answers,
    tr' = tr ++ take k hs
    /\ ping_all ping (take k hs) w = (answers, w')
    /\ match r with
       | Ok _ => take k hs = hs /\ Forall (λ a, a = None) answers
       | Err e => exists before, answers = before ++ [Some e]
                                 /\ Forall (λ a, a = None) before
       | Panic _ => False
       end.
Proof.
  induction hs as [|h hs IH]; intros tr w r tr' w'; cbn.
  - intros [= <- <- <-]. exists 0%nat, []. cbn. by rewrite app_nil_r.
  - destruct (ping h w) as [[e|] w1] eqn:Hp.
    + intros [= <- <- <-]. exists 1%nat, [Some e]. cbn. rewrite Hp, take_0.
      repeat split. by exists [].
    + intros (k & answers & -> & Hall & Hr)%IH.
      exists (S k), (None :: answers). cbn. rewrite Hp, Hall, <- app_assoc.
      repeat split. destruct r as [[]|e|p]; [| |done].
      * destruct Hr as [-> Hnone]. split; [done | by constructor].
      * destruct Hr as (before & -> & Hnone). exists (None :: before).
        split; [done | by constructor].
Qed.

Lemma Ping_is_range (hPing : positive -> World -> option error * World) g db w :
  presence_check g db = None ->
  Ping hPing g db w = ping_range hPing (close_targets db) [] w.
Proof.
  intros Hp. unfold Ping, close_targets. rewrite Hp.
  destruct (primaryInMaintence db); cbn; [done|].
  by destruct (ping_one hPing (master db) [] w) as [[[[]| |] tr] w1].
Qed.

Lemma PingContext_is_Ping
    (hPingContext : Context -> positive -> World -> option error * World) g db ctx w :
  PingContext hPingContext g db ctx w = Ping (hPingContext ctx) g db w.
Proof. reflexivity. Qed.

Lemma apply_range_all s hs tr :
  apply_range s (Some <$> hs) tr = (Ok tt, tr ++ ((λ h, (h, s)) <$> hs)).
Proof.
  revert tr. induction hs as [|h hs IH]; intros tr; cbn.
  - by rewrite app_nil_r.
  - by rewrite IH, <- app_assoc.
Qed.

Lemma set_pool_is_range s g db :
  presence_check g db = None ->
  set_pool s g db = apply_range s (close_targets db) [].
Proof.
  intros Hp. unfold set_pool, close_targets. rewrite Hp.
  destruct (primaryInMaintence db); cbn; [done|].
  by destruct (master db).
Qed.

End PingFacts.

(** X4. [Ping] and [PingContext] of a router that passes the presence
    checks and whose handles are all there ping the primary, unless it
    is in maintenance, then the replicas in list order, and stop at the
    first ping that fails: the handles pinged are a prefix of that
    list, all the pings before the last succeeded, the error returned is
    the last ping's, and success means that the whole list was pinged
    and every ping succeeded. *)
Theorem X4_Ping_stops_at_first_failure {World : Type}
    (hPing : positive -> World -> option error * World)
    (hPingContext : Context -> positive -> World -> option error * World)
    (g : Globals) (db : DB) (hs : list positive) :
  presence_check g db = None ->
  close_targets db = Some <$> hs ->
  (forall w r tr w', Ping hPing g db w = (r, tr, w') ->
     exists k answers,
       tr = take k hs
       /\ ping_all hPing tr w = (answers, w')
       /\ match r with
          | Ok _ => tr = hs /\ Forall (λ a, a = None) answers
          | Err e => exists before, answers = before ++ [Some e]
                                    /\ Forall (λ a, a = None) before
          | Panic _ => False
          end)
  /\ (forall ctx w r tr w', PingContext hPingContext g db ctx w = (r, tr, w') ->
        exists k answers,
          tr = take k hs
          /\ ping_all (hPingContext ctx) tr w = (answers, w')
          /\ match r with
             | Ok _ => tr = hs /\ Forall (λ a, a = None) answers
             | Err e => exists before, answers = before ++ [Some e]
                                       /\ Forall (λ a, a = None) before
             | Panic _ => False
             end).
Proof.
  intros Hp Hhs.
  assert (forall (ping : positive -> World -> option error * World) w r tr w',
            Ping ping g db w = (r, tr, w') ->
            exists k answers,
              tr = take k hs
              /\ ping_all ping tr w = (answers, w')
              /\ match r with
                 | Ok _ => tr = hs /\ Forall (λ a, a = None) answers
                 | Err e => exists before, answers = before ++ [Some e]
                                           /\ Forall (λ a, a = None) before
                 | Panic _ => False
                 end) as Hboth.
  { intros ping w r tr w'. rewrite Ping_is_range, Hhs by done.
    intros (k & answers & -> & Hall & Hr)%ping_range_stops.
    exists k, answers. by repeat split. }
  split.
  - apply Hboth.
  - intros ctx w r tr w'. rewrite PingContext_is_Ping. apply Hboth.
Qed.

Lemma X4_Ping_stops_at_first_failure_witness :
  Ping (Sample.failing [3%positive]) Sample.g_default Sample.db3 tt
  = (Err (ErrDriver 3), [1; 2; 3]%positive, tt)
  /\ exists k, [1; 2; 3]%positive = take k [1; 2; 3; 4]%positive.
Proof.
  split; [reflexivity|].
  destruct (X4_Ping_stops_at_first_failure (Sample.failing [3%positive])
              Cases.ping_by_context Sample.g_default Sample.db3 [1; 2; 3; 4]%positive
              eq_refl eq_refl) as [HPing _].
  destruct (HPing tt (Err (ErrDriver 3)) [1; 2; 3]%positive tt eq_refl)
    as (k & _ & Hk & _).
  by exists k.
Defined.

(** X5. With validation relaxed, [Ping], [PingContext] and the three
    setters check the configuration before anything else: without a
    primary the pings return [ErrNotProvidedPrimary] and the setters
    panic with it, also when the primary is in maintenance and would be
    left alone; with a primary but no replica it is
    [ErrNotProvidedReplicas]; in both cases no handle is touched. *)
Theorem X5_presence_checked_first {World : Type}
    (hPing : positive -> World -> option error * World)
    (hPingContext : Context -> positive -> World -> option error * World)
    (g : Globals) (db : DB) (e : error) :
  DoValidateNew g = false ->
  (master db = None /\ e = ErrNotProvidedPrimary)
  \/ (master db <> None /\ readreplicas db = [] /\ e = ErrNotProvidedReplicas) ->
  (forall w, Ping hPing g db w = (Err e, [], w))
  /\ (forall ctx w, PingContext hPingContext g db ctx w = (Err e, [], w))
  /\ (forall d, SetConnMaxLifetime g db d = (Panic (PanicError e), []))
  /\ (forall n, SetMaxIdleConns g db n = (Panic (PanicError e), []))
  /\ (forall n, SetMaxOpenConns g db n = (Panic (PanicError e), [])).
Proof.
  intros Hv Hmissing.
  assert (presence_check g db = Some e) as Hp.
  { unfold presence_check. rewrite Hv. cbn.
    destruct Hmissing as [[-> ->] | (Hm & -> & ->)]; [done|].
    by rewrite bool_decide_eq_false_2. }
  unfold Ping, PingContext, SetConnMaxLifetime, SetMaxIdleConns, SetMaxOpenConns, set_pool.
  by rewrite Hp.
Qed.

Lemma X5_presence_checked_first_witness :
  Ping (Sample.steady None) Sample.g_default Cases.db_nothing tt
  = (Err ErrNotProvidedPrimary, [], tt)
  /\ SetMaxOpenConns Sample.g_default Sample.db_no_replicas 3
     = (Panic (PanicError ErrNotProvidedReplicas), []).
Proof.
  split.
  - apply (X5_presence_checked_first (Sample.steady None) Cases.ping_by_context
             Sample.g_default Cases.db_nothing ErrNotProvidedPrimary eq_refl).
    by left.
  - apply (X5_presence_checked_first (Sample.steady None) Cases.ping_by_context
             Sample.g_default Sample.db_no_replicas ErrNotProvidedReplicas eq_refl).
    right. by repeat split.
Defined.

(** X6. A setter of a router that passes the presence checks and whose
    handles are all there makes its setting, with the value it was
    given, on the primary, unless it is in maintenance, then on every
    replica, each once and in list order, and returns. *)
Theorem X6_setters_reach_every_handle (g : Globals) (db : DB) (hs : list positive) :
  presence_check g db = None ->
  close_targets db = Some <$> hs ->
  (forall d, SetConnMaxLifetime g db d
             = (Ok tt, (λ h, (h, ConnMaxLifetime d)) <$> hs))
  /\ (forall n, SetMaxIdleConns g db n = (Ok tt, (λ h, (h, MaxIdleConns n)) <$> hs))
  /\ (forall n, SetMaxOpenConns g db n = (Ok tt, (λ h, (h, MaxOpenConns n)) <$> hs)).
Proof.
  intros Hp Hhs.
  unfold SetConnMaxLifetime, SetMaxIdleConns, SetMaxOpenConns.
  repeat split; intros v; by rewrite set_pool_is_range, Hhs, apply_range_all.
Qed.

Lemma X6_setters_reach_every_handle_witness :
  SetMaxIdleConns Sample.g_default Sample.db3_maintenance 3
  = (Ok tt, [(2, MaxIdleConns 3); (3, MaxIdleConns 3); (4, MaxIdleConns 3)]%positive).
Proof.
  apply (X6_setters_reach_every_handle Sample.g_default Sample.db3_maintenance
           [2; 3; 4]%positive); reflexivity.
Defined.

(** ** More on the facade and on Close *)

Section FacadeMore.

Implicit Types (db : DB) (g : Globals) (ctx : Context).

Lemma helper_set_primary m b db :
  readReplicaRoundRobinHelper (set_primary m b db)
  = (fst (readReplicaRoundRobinHelper db),
     set_primary m b (snd (readReplicaRoundRobinHelper db))).
Proof.
  unfold readReplicaRoundRobinHelper, roundRobinIndex. cbn.
  destruct (_ =? 0); [done|]. by destruct (GoInt.index _ _).
Qed.

Lemma tries_set_primary m b n db :
  roundRobinTries n (set_primary m b db)
  = (fst (roundRobinTries n db), set_primary m b (snd (roundRobinTries n db))).
Proof.
  revert db. induction n as [|n IH]; intros db; [done|]. cbn [roundRobinTries].
  rewrite helper_set_primary. pose proof (helper_frame db) as Hf.
  destruct (readReplicaRoundRobinHelper db) as [[r| |] db1]; cbn in Hf; subst db1;
    cbn; [|done..].
  destruct (needHeartbeat db); [|done]. destruct (decide _); [|done].
  apply (IH (set_count (GoInt.incr (count db)) db)).
Qed.

Lemma selector_set_primary m b g db bypass :
  readReplicaRoundRobin g (set_primary m b db) bypass
  = (fst (readReplicaRoundRobin g db bypass),
     set_primary m b (snd (readReplicaRoundRobin g db bypass))).
Proof.
  unfold readReplicaRoundRobin. cbn [readreplicas needHeartbeat set_primary].
  destruct (_ && _); [done|].
  destruct (_ || _); [apply helper_set_primary | apply tries_set_primary].
Qed.

Lemma on_primary_keeps g db o :
  targets_primary g o = true -> snd (run_op g db o) = db.
Proof.
  destruct o; cbn; try done;
    unfold Prepare, PrepareContext; intros ->%negb_true_iff; done.
Qed.

Lemma selector_cursor_only g db bypass :
  same_but_cursor db (snd (readReplicaRoundRobin g db bypass)).
Proof.
  unfold readReplicaRoundRobin. destruct (_ && _); [by destruct db|].
  destruct (_ || _).
  - rewrite helper_frame. done.
  - generalize (length (readreplicas db)). intros n. revert db.
    induction n as [|n IH]; intros db; [by destruct db|]. cbn [roundRobinTries].
    pose proof (helper_frame db) as Hf.
    destruct (readReplicaRoundRobinHelper db) as [[r| |] db1]; cbn in Hf; subst db1;
      [|done..].
    destruct (needHeartbeat _); [|done]. destruct (decide _); [|done].
    specialize (IH (set_count (GoInt.incr (count db)) db)).
    unfold same_but_cursor in *. by rewrite IH at 1.
Qed.

Lemma run_op_cursor_only g db o : same_but_cursor db (snd (run_op g db o)).
Proof.
  assert (same_but_cursor db db) as Hrefl by (by destruct db).
  destruct o; cbn;
    unfold Query, QueryContext, QueryRow, QueryRowContext, Begin, BeginTx,
      Exec, ExecContext, Prepare, PrepareContext;
    repeat match goal with
      | |- context [validateQuery ?f ?q] => destruct (validateQuery f q)
      | |- context [readReplicaRoundRobin ?g ?db ?b] =>
          pose proof (selector_cursor_only g db b);
          destruct (readReplicaRoundRobin g db b) as [[?| |] ?]
      | |- context [if ?b then _ else _] => destruct b
      end; done.
Qed.

End FacadeMore.

(** X7. [Close] is good for once: whatever the first [Close] of a
    router did, it left the stop channel closed, and every later [Close]
    panics on closing it again, before it reaches any handle. *)
Theorem X7_Close_twice_panics {World : Type}
    (hClose : positive -> World -> option error * World) (db : DB) (w w2 : World) :
  stopHeartbeat (snd (Close hClose db w)) = ChanClosed
  /\ Close hClose (snd (Close hClose db w)) w2
     = (Panic CloseOfClosedChannel, snd (Close hClose db w)).
Proof.
  assert (stopHeartbeat (snd (Close hClose db w)) = ChanClosed) as Hclosed.
  { unfold Close. destruct (stopHeartbeat db) eqn:Hst; [|done].
    by destruct (if negb _ then _ else _). }
  split; [done|]. unfold Close at 1. by rewrite Hclosed.
Qed.

(** X8. [Close] makes no presence check: on a router without a
    primary that is not in maintenance it closes the stop channel and
    then panics on the nil handle, where [Exec] and [Begin] under relaxed
    validation return [ErrNotProvidedPrimary]. *)
Theorem X8_Close_without_primary {World : Type}
    (hClose : positive -> World -> option error * World) (g : Globals) (db : DB)
    (w : World) :
  master db = None ->
  primaryInMaintence db = false ->
  stopHeartbeat db = ChanOpen ->
  Close hClose db w = (Panic NilDereference, set_stopHeartbeat ChanClosed db)
  /\ (DoValidateNew g = false ->
        forall query args, Exec g db query args = (Return ErrNotProvidedPrimary, db)
                           /\ Begin g db = (Return ErrNotProvidedPrimary, db)).
Proof.
  intros Hm Hmaint Hopen. split.
  - unfold Close. by rewrite Hopen, Hmaint, Hm.
  - intros Hv query args. unfold Exec, Begin. by rewrite !on_primary_absent.
Qed.

Lemma X8_Close_without_primary_witness :
  Close (Sample.steady None) Sample.db3_no_primary tt
  = (Panic NilDereference, set_stopHeartbeat ChanClosed Sample.db3_no_primary).
Proof.
  apply (X8_Close_without_primary (Sample.steady None) Sample.g_default
           Sample.db3_no_primary tt); reflexivity.
Defined.

(** X9. Reading does not depend on the primary: [Query], [QueryRow],
    [Prepare] of a read-only query and their context forms without the
    directive end the same way, and move the cursor the same way,
    whatever the primary handle is, present or not, in maintenance or
    not. *)
Theorem X9_reads_ignore_primary (g : Globals) (db : DB) (o : op) (m : sqlDB) (b : bool) :
  reads_replica g o = true ->
  run_op g (set_primary m b db) o
  = (fst (run_op g db o), set_primary m b (snd (run_op g db o))).
Proof.
  intros Ho.
  destruct o; cbn in Ho; try done; cbn;
    unfold Query, QueryContext, QueryRow, QueryRowContext, Prepare, PrepareContext;
    rewrite ?selector_set_primary;
    try (apply negb_true_iff in Ho; rewrite Ho);
    try (apply andb_true_iff in Ho as [Hq ->%negb_true_iff]; rewrite Hq);
    try rewrite Ho; cbn [andb negb];
    repeat match goal with
      | |- context [validateQuery ?f ?q] => destruct (validateQuery f q)
      | |- context [readReplicaRoundRobin ?g ?db ?by_] =>
          destruct (readReplicaRoundRobin g db by_) as [[?| |] ?]
      end; done.
Qed.

Lemma X9_reads_ignore_primary_witness :
  fst (run_op Sample.g_default (set_primary None true Sample.db3) (OpQuery "select 1" []))
  = Delegate 2 (CallQuery "select 1" []).
Proof.
  rewrite (X9_reads_ignore_primary Sample.g_default Sample.db3
             (OpQuery "select 1" []) None true eq_refl).
  reflexivity.
Defined.

(** X10. Under maintenance the directive is dropped by [QueryContext]
    and [QueryRowContext], which then pick their target as [Query] and
    [QueryRow] do and pass the context on, but not by [PrepareContext],
    which returns [ErrPrimaryInMaintenance] for every query, read-only
    or not. *)
Theorem X10_directive_under_maintenance (g : Globals) (db : DB) (ctx : Context)
    (query : string) (args : list arg) :
  primaryInMaintence db = true ->
  UsePrimaryFromContext ctx = true ->
  PrepareContext g db ctx query = (Return ErrPrimaryInMaintenance, db)
  /\ QueryContext g db ctx query args
     = (match fst (Query g db query args) with
        | Delegate h _ => Delegate h (CallQueryContext ctx query args)
        | o => o
        end, snd (Query g db query args))
  /\ QueryRowContext g db ctx query args
     = (match fst (QueryRow g db query args) with
        | Delegate h _ => Delegate h (CallQueryRowContext ctx query args)
        | o => o
        end, snd (QueryRow g db query args)).
Proof.
  intros Hm Hctx.
  unfold PrepareContext, QueryContext, Query, QueryRowContext, QueryRow.
  rewrite Hctx, Hm. cbn [negb andb]. rewrite andb_false_r.
  split; [by rewrite on_primary_maintenance|]. split.
  - destruct (validateQuery _ _); [done|].
    by destruct (readReplicaRoundRobin g db []) as [[[h|]| |] db'].
  - by destruct (readReplicaRoundRobin g db [true]) as [[[h|]| |] db'].
Qed.

Lemma X10_directive_under_maintenance_witness :
  PrepareContext Sample.g_default Sample.db3_maintenance (WithPrimary Background) "select 1"
  = (Return ErrPrimaryInMaintenance, Sample.db3_maintenance)
  /\ fst (QueryContext Sample.g_default Sample.db3_maintenance (WithPrimary Background)
            "select 1" [])
     = Delegate 2 (CallQueryContext (WithPrimary Background) "select 1" []).
Proof.
  destruct (X10_directive_under_maintenance Sample.g_default Sample.db3_maintenance
              (WithPrimary Background) "select 1" [] eq_refl eq_refl) as (HP & HQ & _).
  split; [exact HP|]. rewrite HQ. reflexivity.
Defined.

(** X11. [Query] and [QueryContext] call a handle only for a query the
    classifier in force takes for read-only, and with the query and the
    arguments as given; the handle [Query] calls is a replica of the list,
    and with the heartbeat on not one of the unavailable set; so is the
    handle [QueryContext] calls, unless the directive sent it to the
    primary. *)
Theorem X11_Query_targets (g : Globals) (db : DB) (ctx : Context) (query : string)
    (args : list arg) (h : positive) (c : call) :
  (fst (Query g db query args) = Delegate h c ->
     IsQuerySqlFunc g query = true
     /\ c = CallQuery query args
     /\ Some h ∈ readreplicas db
     /\ (needHeartbeat db = true -> Some h ∉ unavailableReplicas db))
  /\ (fst (QueryContext g db ctx query args) = Delegate h c ->
        IsQuerySqlFunc g query = true
        /\ c = CallQueryContext ctx query args
        /\ ((UsePrimaryFromContext ctx = true /\ primaryInMaintence db = false
             /\ master db = Some h)
            \/ (Some h ∈ readreplicas db
                /\ (needHeartbeat db = true -> Some h ∉ unavailableReplicas db)))).
Proof.
  unfold Query, QueryContext, validateQuery.
  destruct (IsQuerySqlFunc g query); cbn [negb]; [|by split].
  split.
  - destruct (readReplicaRoundRobin g db []) as [[[t|]| |] db'] eqn:Hsel; cbn; try done.
    intros [= <- <-]. destruct (selector_result _ _ _ _ _ Hsel) as [Hin _].
    repeat split; try done. intros Hhb.
    exact (selector_result_available g db [] _ _ Hhb eq_refl Hsel).
  - destruct (UsePrimaryFromContext ctx); cbn [andb];
      [destruct (primaryInMaintence db); cbn [negb]|].
    2: { destruct (negb (DoValidateNew g) && _); [done|].
         destruct (master db) as [hm|]; cbn; [|done].
         intros [= <- <-]. repeat split. left. by repeat split. }
    all: destruct (readReplicaRoundRobin g db []) as [[[t|]| |] db'] eqn:Hsel;
      cbn; try done.
    all: intros [= <- <-]; destruct (selector_result _ _ _ _ _ Hsel) as [Hin _].
    all: repeat split; right; split; [done|]; intros Hhb.
    all: exact (selector_result_available g db [] _ _ Hhb eq_refl Hsel).
Qed.

Lemma X11_Query_targets_witness :
  Some 3%positive ∈ readreplicas Cases.db3_first_down
  /\ Some 3%positive ∉ unavailableReplicas Cases.db3_first_down.
Proof.
  destruct (X11_Query_targets Sample.g_default Cases.db3_first_down Background
              "select 1" [] 3 (CallQuery "select 1" [])) as [HQ _].
  destruct (HQ eq_refl) as (_ & _ & Hin & Hav).
  split; [exact Hin | by apply Hav].
Defined.

(** X12. The directive is a matter of presence: [WithPrimary] sets it on
    any context; binding another key over it leaves it as it was; and a
    binding of the package's key decides by itself, any value but nil
    setting the directive and nil taking it away from what lies
    beneath. *)
Theorem X12_directive_presence (ctx : Context) :
  UsePrimaryFromContext (WithPrimary ctx) = true
  /\ (forall k v, k <> ContextUsePrimaryKey ->
        UsePrimaryFromContext (WithValue ctx k v) = UsePrimaryFromContext ctx)
  /\ (forall v, UsePrimaryFromContext (WithValue ctx ContextUsePrimaryKey (Some v)) = true)
  /\ UsePrimaryFromContext (WithValue ctx ContextUsePrimaryKey None) = false.
Proof.
  unfold UsePrimaryFromContext, WithPrimary, WithValue. cbn.
  rewrite decide_True by done. repeat split.
  intros k v Hk. by rewrite decide_False.
Qed.

Lemma X12_directive_presence_witness :
  UsePrimaryFromContext (WithValue (WithPrimary Background) (ForeignKey "trace") None) = true.
Proof.
  destruct (X12_directive_presence (WithPrimary Background)) as (_ & Hother & _).
  rewrite Hother; [reflexivity | done].
Defined.

(** X13. Nothing a router goes through changes its primary, its list of
    replicas or its flags: a method of the facade changes the cursor at
    most, and not even that when it goes to the primary; [Close] changes
    the stop channel at most; a tick changes the unavailable set at
    most. *)
Theorem X13_router_is_fixed {World : Type}
    (hPing hClose : positive -> World -> option error * World) (db : DB) :
  (forall g o, same_but_cursor db (snd (run_op g db o)))
  /\ (forall g o, targets_primary g o = true -> snd (run_op g db o) = db)
  /\ (forall w, snd (Close hClose db w) = db
                \/ snd (Close hClose db w) = set_stopHeartbeat ChanClosed db)
  /\ (forall m w db' w',
        monitor_turn hPing m WakeTick db w = (Ok (Some db'), w') ->
        db' = set_unavailableReplicas (unavailableReplicas db') db).
Proof.
  split; [intros g o; apply run_op_cursor_only|].
  split; [intros g o; apply on_primary_keeps|]. split.
  - intros w. unfold Close. destruct (stopHeartbeat db); [|by left].
    destruct (if negb _ then _ else _); by right.
  - intros m w db' w' (s & _ & ->)%tick_result. done.
Qed.

Lemma X13_router_is_fixed_witness :
  snd (Exec Sample.g_default Sample.db3 "delete from t" []) = Sample.db3.
Proof.
  destruct (X13_router_is_fixed (Sample.steady None) (Sample.steady None) Sample.db3)
    as (_ & Hprimary & _).
  apply (Hprimary Sample.g_default (OpExec "delete from t" [])). reflexivity.
Defined.

(** ** More on construction *)

Section ConstructionMore.

Context {World : Type}.
Variable hPing : positive -> World -> option error * World.

Lemma validateNew_passes m rs :
  validateNew m rs = None <-> m <> None /\ rs <> [] /\ Forall (λ r, r <> None) rs.
Proof.
  unfold validateNew. destruct (decide (m = None)) as [->|Hm]; [naive_solver|].
  destruct (Z.eqb_spec (GoInt.len rs) 0) as [H0|H0].
  - destruct rs; [naive_solver | unfold GoInt.len in H0; simpl length in H0; lia].
  - assert (rs <> []) as Hne by (intros ->; done).
    destruct (decide (Exists (λ r, r = None) rs)) as [Hex|Hex].
    + split; [done|]. intros (_ & _ & Hall). exfalso.
      apply Exists_exists in Hex as (r & Hin & ->).
      by apply (proj1 (Forall_forall _ _) Hall None).
    + split; [|done]. intros _. repeat split; try done.
      apply Forall_forall. intros r Hin ->. apply Hex, Exists_exists. by exists None.
Qed.

Lemma heartbeat_range_nil rs acc w :
  None ∈ rs -> fst (heartbeat_range hPing rs acc w) = Panic NilDereference.
Proof.
  revert acc w. induction rs as [|[h|] rs IH]; intros acc w Hin; cbn.
  - by apply elem_of_nil in Hin.
  - apply elem_of_cons in Hin as [?|Hin]; [done|].
    destruct (hPing h w) as [[e|] w1]; by apply IH.
  - done.
Qed.

End ConstructionMore.

(** X14. [validateNew] passes exactly when there is a primary and at
    least one replica and no replica is nil, and it names the primary
    first when both are missing. With validation on, [New] panics with
    its error before any ping, and a router it returns has its primary
    and a non-empty list of replicas without nil: such a router passes
    the presence checks whatever the validation flag is later set to. *)
Theorem X14_validated_router {World : Type}
    (hPing : positive -> World -> option error * World)
    (g : Globals) (getenv : string -> string) (primary : sqlDB)
    (replicas : list sqlDB) (w : World) :
  (validateNew primary replicas = None
   <-> primary <> None /\ replicas <> [] /\ Forall (λ r, r <> None) replicas)
  /\ (primary = None -> validateNew primary replicas = Some ErrNotProvidedPrimary)
  /\ (DoValidateNew g = true ->
        (forall e, validateNew primary replicas = Some e ->
           New hPing g getenv primary replicas w = (Panic (PanicError e), w))
        /\ (forall db m w', New hPing g getenv primary replicas w = (Ok (db, m), w') ->
              master db <> None
              /\ readreplicas db <> []
              /\ Forall (λ r, r <> None) (readreplicas db)
              /\ forall g', presence_check g' db = None)).
Proof.
  split; [apply validateNew_passes|]. split.
  - intros ->. reflexivity.
  - intros Hv. split.
    + intros e He. unfold New. by rewrite Hv, He.
    + intros db m w' HNew.
      destruct (New_fields hPing _ _ _ _ _ _ _ _ HNew) as (Hmaster & Hreps & _).
      rewrite Hmaster, Hreps.
      assert (validateNew primary replicas = None) as Hok.
      { revert HNew. unfold New. rewrite Hv. by destruct (validateNew primary replicas). }
      apply validateNew_passes in Hok as (Hp & Hr & Hall).
      repeat split; try done. intros g'. unfold presence_check.
      rewrite Hmaster, Hreps.
      destruct (negb (DoValidateNew g')); [|done].
      rewrite bool_decide_eq_false_2 by done.
      destruct (Z.eqb_spec (GoInt.len replicas) 0) as [H0|_]; [|done].
      destruct replicas; [done | unfold GoInt.len in H0; simpl length in H0; lia].
Qed.

Lemma X14_validated_router_witness :
  New (Sample.steady None) Sample.g_validating Sample.no_env None Sample.three_replicas tt
  = (Panic (PanicError ErrNotProvidedPrimary), tt)
  /\ presence_check Sample.g_default Sample.db3 = None.
Proof.
  destruct (X14_validated_router (Sample.steady None) Sample.g_validating Sample.no_env
              None Sample.three_replicas tt) as (_ & _ & Hon).
  destruct (X14_validated_router (Sample.steady None) Sample.g_validating Sample.no_env
              Sample.primary Sample.three_replicas tt) as (_ & _ & Hon').
  destruct (Hon eq_refl) as [Hpanic _]. destruct (Hon' eq_refl) as [_ Hrouter].
  split.
  - apply Hpanic. reflexivity.
  - destruct (Hrouter Sample.db3 (mkMonitor (Some (30 * second))) tt eq_refl)
      as (_ & _ & _ & Hpres).
    apply Hpres.
Defined.

(** X15. With auto-failover on, [New] makes one heartbeat pass before
    it returns: every replica is pinged once, in list order, and the
    router starts with exactly those whose ping failed as its
    unavailable set, the cursor before the first replica, the stop
    channel open and a ticker of the default interval for its monitor.
    A nil replica, which only relaxed validation lets through, makes
    that pass, and so [New], panic. *)
Theorem X15_New_heartbeat_pass {World : Type}
    (hPing : positive -> World -> option error * World)
    (g : Globals) (getenv : string -> string) (primary : sqlDB) (w : World) :
  DisableReplicaAutoFailover g = false ->
  (forall hs,
     (if DoValidateNew g then validateNew primary (Some <$> hs) else None) = None ->
     0 < DefaultReplicaAutoFailoverInterval g ->
     New hPing g getenv primary (Some <$> hs) w
     = (Ok (mkDB primary (Some <$> hs) (-1) true
                 (list_to_set (failed hs (fst (ping_all hPing hs w))))
                 ChanOpen (env_true getenv EnvVarPrimaryInMaintenanceKey),
            mkMonitor (Some (DefaultReplicaAutoFailoverInterval g))),
        snd (ping_all hPing hs w)))
  /\ (forall replicas,
        DoValidateNew g = false -> None ∈ replicas ->
        fst (New hPing g getenv primary replicas w) = Panic NilDereference).
Proof.
  intros Hon. split.
  - intros hs Hvalid Hint. unfold New. rewrite Hvalid, Hon. cbn [negb].
    rewrite heartbeat_all.
    destruct (Z.leb_spec (DefaultReplicaAutoFailoverInterval g) 0); [lia|done].
  - intros replicas Hv Hnil. unfold New. rewrite Hv, Hon. cbn [negb].
    pose proof (heartbeat_range_nil hPing replicas ∅ w Hnil) as Hhb.
    unfold heartbeat.
    destruct (heartbeat_range hPing replicas ∅ w) as [[s| |] w1]; cbn in Hhb; try done.
    cbn. by injection Hhb as ->.
Qed.

Lemma X15_New_heartbeat_pass_witness :
  New (Sample.failing [3%positive]) Sample.g_default Sample.no_env Sample.primary
      Sample.three_replicas tt
  = (Ok (Sample.db3_one_down, mkMonitor (Some (30 * second))), tt)
  /\ fst (New (Sample.steady None) Sample.g_default Sample.no_env Sample.primary
              [Some 2%positive; None] tt)
     = Panic NilDereference.
Proof.
  destruct (X15_New_heartbeat_pass (Sample.failing [3%positive]) Sample.g_default
              Sample.no_env Sample.primary tt eq_refl) as [Hpass _].
  destruct (X15_New_heartbeat_pass (Sample.steady None) Sample.g_default
              Sample.no_env Sample.primary tt eq_refl) as [_ Hnil].
  split.
  - change Sample.three_replicas with (Some <$> [2; 3; 4]%positive).
    rewrite (Hpass [2; 3; 4]%positive eq_refl); by vm_compute.
  - apply Hnil; [reflexivity|]. apply list_elem_of_In. cbn. tauto.
Defined.

(** ** Routing, and ticks followed by selections *)

Section RoutingMore.

Context {World : Type}.
Variable hPing : positive -> World -> option error * World.

Implicit Types (db : DB) (g : Globals) (w : World) (hs : list positive).

Lemma failed_none hs w :
  Forall (λ a, a = None) (fst (ping_all hPing hs w)) ->
  failed hs (fst (ping_all hPing hs w)) = [].
Proof.
  revert w. induction hs as [|h hs IH]; intros w; cbn; [done|].
  destruct (hPing h w) as [e w1]. specialize (IH w1).
  destruct (ping_all hPing hs w1) as [answers w2]. cbn in *.
  intros [-> Hrest]%Forall_cons. by apply IH.
Qed.

Lemma failed_all hs w :
  Forall (λ a, a <> None) (fst (ping_all hPing hs w)) ->
  failed hs (fst (ping_all hPing hs w)) = Some <$> hs.
Proof.
  revert w. induction hs as [|h hs IH]; intros w; cbn; [done|].
  destruct (hPing h w) as [e w1]. specialize (IH w1).
  destruct (ping_all hPing hs w1) as [answers w2]. cbn in *.
  intros [He Hrest]%Forall_cons. destruct e as [e|]; [|done].
  by rewrite IH.
Qed.

End RoutingMore.

(** X16. [Prepare] and [PrepareContext] split by the classifier in
    force: a query it takes for read-only, the context carrying no
    directive, is prepared on a replica of the list, one that is not in
    the unavailable set when the heartbeat is on; any other query, and
    any query under the directive, is prepared on the primary, which then
    is not in maintenance; the query is passed on as given. *)
Theorem X16_Prepare_splits (g : Globals) (db : DB) (ctx : Context) (query : string)
    (h : positive) (c : call) :
  (fst (Prepare g db query) = Delegate h c ->
     c = CallPrepare query
     /\ if IsQuerySqlFunc g query
        then Some h ∈ readreplicas db
             /\ (needHeartbeat db = true -> Some h ∉ unavailableReplicas db)
        else master db = Some h /\ primaryInMaintence db = false)
  /\ (fst (PrepareContext g db ctx query) = Delegate h c ->
        c = CallPrepareContext ctx query
        /\ if IsQuerySqlFunc g query && negb (UsePrimaryFromContext ctx)
           then Some h ∈ readreplicas db
                /\ (needHeartbeat db = true -> Some h ∉ unavailableReplicas db)
           else master db = Some h /\ primaryInMaintence db = false).
Proof.
  assert (forall c0, on_primary g db c0 = Delegate h c ->
                     c = c0 /\ master db = Some h /\ primaryInMaintence db = false)
    as Hprimary.
  { intros c0. unfold on_primary. destruct (primaryInMaintence db); [done|].
    destruct (negb (DoValidateNew g) && _); [done|].
    destruct (master db) as [hm|]; cbn; [|done]. by intros [= <- <-]. }
  unfold Prepare, PrepareContext. split.
  - destruct (IsQuerySqlFunc g query).
    + destruct (readReplicaRoundRobin g db []) as [[[t|]| |] db'] eqn:Hsel; cbn; try done.
      intros [= <- <-]. destruct (selector_result _ _ _ _ _ Hsel) as [Hin _].
      repeat split; try done. intros Hhb.
      exact (selector_result_available g db [] _ _ Hhb eq_refl Hsel).
    + cbn. intros (-> & ? & ?)%Hprimary. by repeat split.
  - destruct (IsQuerySqlFunc g query && negb (UsePrimaryFromContext ctx)).
    + destruct (readReplicaRoundRobin g db []) as [[[t|]| |] db'] eqn:Hsel; cbn; try done.
      intros [= <- <-]. destruct (selector_result _ _ _ _ _ Hsel) as [Hin _].
      repeat split; try done. intros Hhb.
      exact (selector_result_available g db [] _ _ Hhb eq_refl Hsel).
    + cbn. intros (-> & ? & ?)%Hprimary. by repeat split.
Qed.

Lemma X16_Prepare_splits_witness :
  master Sample.db3 = Some 1%positive /\ primaryInMaintence Sample.db3 = false.
Proof.
  destruct (X16_Prepare_splits Sample.g_default Sample.db3 (WithPrimary Background)
              "select 1" 1 (CallPrepareContext (WithPrimary Background) "select 1"))
    as [_ HPC].
  destruct (HPC eq_refl) as [_ Hp]. exact Hp.
Defined.

(** X17. A tick decides what the next health-checked selection finds:
    after a tick on which every ping failed there is no replica to be
    had, [ErrNoReplicaAvailable], whatever was available before; after a
    tick on which every ping succeeded the selection returns the next
    replica of the round, whatever was unavailable before. *)
Theorem X17_tick_then_select {World : Type}
    (hPing : positive -> World -> option error * World)
    (g : Globals) (db db' : DB) (m : Monitor) (w w' : World) (hs : list positive)
    (bypass : list bool) :
  monitor_turn hPing m WakeTick db w = (Ok (Some db'), w') ->
  readreplicas db = Some <$> hs ->
  hs <> [] ->
  needHeartbeat db = true ->
  default false (head bypass) = false ->
  cursor_has_room (GoInt.len (readreplicas db)) db ->
  (Forall (λ a, a <> None) (fst (ping_all hPing hs w)) ->
     fst (readReplicaRoundRobin g db' bypass) = Err ErrNoReplicaAvailable)
  /\ (Forall (λ a, a = None) (fst (ping_all hPing hs w)) ->
        readReplicaRoundRobin g db' bypass
        = (Ok (replica_at db ((count db + 1) mod GoInt.len (readreplicas db))),
           set_count (count db + 1) db')).
Proof.
  intros Htick Hhs Hne Hhb Hby [Hlo Hhi].
  destruct (tick_result hPing _ _ _ _ _ Htick) as (s & Hbeat & ->).
  rewrite Hhs, heartbeat_all in Hbeat. injection Hbeat as <- _.
  assert (readreplicas db <> []) as Hne' by (rewrite Hhs; by destruct hs).
  pose proof (len_pos db Hne') as Hlen.
  split.
  - intros Hfail. rewrite failed_all by done.
    rewrite selector_health_checked by done.
    cbn [readreplicas set_unavailableReplicas].
    destruct (Z.eqb_spec (GoInt.len (readreplicas db)) 0) as [?|_]; [lia|].
    rewrite andb_false_r, tries_all_unavailable; [done|done| |done|].
    + split; cbn; unfold GoInt.len in *; lia.
    + cbn. rewrite Hhs. apply Forall_forall. intros r Hr. set_solver.
  - intros Hok. rewrite failed_none by done.
    rewrite selector_is_helper, helper_in_range; cbn; try done; lia.
Qed.

Lemma X17_tick_then_select_witness :
  fst (readReplicaRoundRobin Sample.g_default Sample.db3_all_down [])
  = Err ErrNoReplicaAvailable.
Proof.
  destruct (X17_tick_then_select (Sample.steady (Some (ErrDriver 7))) Sample.g_default
              Sample.db3 Sample.db3_all_down (mkMonitor (Some (30 * second))) tt tt
              [2; 3; 4]%positive [] eq_refl eq_refl ltac:(done) eq_refl eq_refl
              ltac:(split; by vm_compute)) as [Hdown _].
  apply Hdown. by vm_compute; repeat constructor.
Defined.

(** X18. What goes to the primary goes there as given: with a primary
    that is not in maintenance, [Exec], [ExecContext], [Begin],
    [BeginTx], and [Prepare] and [PrepareContext] of a query that is not
    read-only, call the primary handle with their own arguments, and the
    router, its cursor included, stays as it was. *)
Theorem X18_writes_reach_primary (g : Globals) (db : DB) (o : op) (h : positive) :
  targets_primary g o = true ->
  primaryInMaintence db = false ->
  master db = Some h ->
  run_op g db o = (Delegate h (call_of o), db).
Proof.
  intros Ho Hm Hh.
  assert (forall c, on_primary g db c = Delegate h c) as Hprimary.
  { intros c. unfold on_primary. rewrite Hm, Hh. cbn. by rewrite andb_false_r. }
  destruct o; cbn in Ho; try done; cbn;
    unfold Begin, BeginTx, Exec, ExecContext, Prepare, PrepareContext;
    rewrite ?(proj1 (negb_true_iff _) Ho); cbn [andb];
    by rewrite Hprimary.
Qed.

Lemma X18_writes_reach_primary_witness :
  run_op Sample.g_default Sample.db3 (OpExecContext Background "delete from t" [ArgInt 1])
  = (Delegate 1 (CallExecContext Background "delete from t" [ArgInt 1]), Sample.db3).
Proof.
  apply (X18_writes_reach_primary Sample.g_default Sample.db3
           (OpExecContext Background "delete from t" [ArgInt 1]) 1); reflexivity.
Defined.
